(** * Idempotency logic of the karaf_config and karaf_feature modules

    A shallow embedding of [karaf_config.py] and [karaf_feature.py]:
    the Python values the two modules handle, the string primitives
    they call, the subprocess interaction with the karaf client, and
    the two handlers themselves, followed by the properties of the
    handlers. *)

From Stdlib Require Import ZArith String Ascii List Bool Lia DecimalString DecimalPos.
From Stdlib Require Import Floats.SpecFloat.
From stdpp Require Import gmap strings list fin_maps.

Local Open Scope Z_scope.

(* ===================================================================== *)
(** ** Python strings *)
(* ===================================================================== *)

(** Strings are byte strings ([str] of the interpreter the modules run
    under); the methods below are the ones the two source files call. *)
Module PyStr.

(** The characters [str.strip()] removes: space, \t, \n, \v, \f, \r. *)
Definition is_ws (c : ascii) : bool :=
  let n := nat_of_ascii c in
  (n =? 32)%nat || ((9 <=? n)%nat && (n <=? 13)%nat).

Definition is_upper (c : ascii) : bool :=
  let n := nat_of_ascii c in (65 <=? n)%nat && (n <=? 90)%nat.

Definition lower_char (c : ascii) : ascii :=
  if is_upper c then ascii_of_nat (nat_of_ascii c + 32) else c.

(** [s.lower()] *)
Fixpoint lower (s : string) : string :=
  match s with
  | EmptyString => EmptyString
  | String c r => String (lower_char c) (lower r)
  end.

(** [s.lstrip()] *)
Fixpoint lstrip (s : string) : string :=
  match s with
  | EmptyString => EmptyString
  | String c r => if is_ws c then lstrip r else s
  end.

(** [s.rstrip()] *)
Fixpoint rstrip (s : string) : string :=
  match s with
  | EmptyString => EmptyString
  | String c r =>
      match rstrip r with
      | EmptyString => if is_ws c then EmptyString else String c EmptyString
      | r' => String c r'
      end
  end.

(** [s.strip()] *)
Definition strip (s : string) : string := rstrip (lstrip s).

(** [c in s] for a one-character [c]. *)
Fixpoint contains (c : ascii) (s : string) : bool :=
  match s with
  | EmptyString => false
  | String d r => if Ascii.eqb d c then true else contains c r
  end.

(** [s.find(c)] for a one-character [c]: the first index, or -1. *)
Fixpoint find (c : ascii) (s : string) : Z :=
  match s with
  | EmptyString => -1
  | String d r =>
      if Ascii.eqb d c then 0
      else match find c r with
           | Zneg _ => -1
           | i => i + 1
           end
  end.

Fixpoint take (n : nat) (s : string) : string :=
  match n, s with
  | S n', String c r => String c (take n' r)
  | _, _ => EmptyString
  end.

Fixpoint drop (n : nat) (s : string) : string :=
  match n, s with
  | S n', String _ r => drop n' r
  | _, _ => s
  end.

(** A slice bound [i] on a string of length [n]: negative bounds count
    from the end, and every bound is clipped to [0..n]. *)
Definition bound (n : nat) (i : Z) : nat :=
  if i <? 0 then Z.to_nat (Z.max 0 (Z.of_nat n + i))
  else Nat.min n (Z.to_nat i).

(** [s[:i]] *)
Definition slice_to (s : string) (i : Z) : string :=
  take (bound (String.length s) i) s.

(** [s[i:]] *)
Definition slice_from (s : string) (i : Z) : string :=
  drop (bound (String.length s) i) s.

(** [s.split(c)] for a one-character separator [c]. *)
Fixpoint split (c : ascii) (s : string) : list string :=
  match s with
  | EmptyString => [EmptyString]
  | String d r =>
      if Ascii.eqb d c then EmptyString :: split c r
      else match split c r with
           | h :: t => String d h :: t
           | [] => [String d EmptyString]
           end
  end.

(** [sep.join(l)] *)
Fixpoint join (sep : string) (l : list string) : string :=
  match l with
  | [] => EmptyString
  | [s] => s
  | s :: r => s +:+ sep +:+ join sep r
  end.

(** [s.index(sub)]: the first index where [sub] starts; [None] stands
    for the [ValueError] raised when there is none. *)
Fixpoint index (sub s : string) : option nat :=
  if String.prefix sub s then Some 0%nat
  else match s with
       | EmptyString => None
       | String _ r => S <$> index sub r
       end.

End PyStr.

(* ===================================================================== *)
(** ** Python values *)
(* ===================================================================== *)

Module Py.

(** Exceptions the modelled code can raise. *)
Inductive exn := ValueError | IndexError.

(** Result of an expression that may raise. *)
Inductive res (A : Type) :=
| Ok (a : A)
| Raise (e : exn).
Arguments Ok {A} a.
Arguments Raise {A} e.

Definition bind {A B} (r : res A) (f : A -> res B) : res B :=
  match r with
  | Ok a => f a
  | Raise e => Raise e
  end.

Notation "'let!' x ':=' r 'in' k" := (bind r (fun x => k))
  (at level 10, x name, r at level 100, k at level 200).

(** The scalar values of a PropertySet and of the module parameters:
    [None], [bool], [int], [float] (IEEE binary64) and [str]. *)
Inductive val :=
| VNone
| VBool (b : bool)
| VInt (z : Z)
| VFloat (f : spec_float)
| VStr (s : string).

(** Truth value of [if v:] *)
Definition truthy (v : val) : bool :=
  match v with
  | VNone => false
  | VBool b => b
  | VInt z => negb (z =? 0)
  | VFloat (S754_zero _) => false
  | VFloat _ => true
  | VStr s => negb (String.eqb s EmptyString)
  end.

(** [l[i]] on a list, for a non-negative literal index. *)
Definition getitem {A} (l : list A) (i : nat) : res A :=
  match l !! i with
  | Some a => Ok a
  | None => Raise IndexError
  end.

(** *** Numbers *)

Definition prec := 53.
Definition emax := 1024.

(** Exact comparison of a float with an integer, as [float == int]
    does: [m * 2^e = z] without rounding. *)
Definition float_eq_int (f : spec_float) (z : Z) : bool :=
  match f with
  | S754_zero _ => z =? 0
  | S754_finite s m e =>
      let sm := if s then Zneg m else Zpos m in
      if 0 <=? e then sm * 2 ^ e =? z
      else sm =? z * 2 ^ (- e)
  | _ => false
  end.

Definition Z_of_bool (b : bool) : Z := if b then 1 else 0.

(** [a == b].  [bool] is a subtype of [int]; numbers compare by value
    across [bool], [int] and [float]; a NaN equals nothing; strings
    and [None] equal only their own kind. *)
Definition eqb (a b : val) : bool :=
  match a, b with
  | VNone, VNone => true
  | VStr s, VStr t => String.eqb s t
  | VBool x, VBool y => Bool.eqb x y
  | VBool x, VInt z | VInt z, VBool x => Z_of_bool x =? z
  | VInt x, VInt y => x =? y
  | VFloat f, VFloat g => SFeqb f g
  | VFloat f, VInt z | VInt z, VFloat f => float_eq_int f z
  | VFloat f, VBool x | VBool x, VFloat f => float_eq_int f (Z_of_bool x)
  | _, _ => false
  end.

(** [a != b] *)
Definition neqb (a b : val) : bool := negb (eqb a b).

(** *** [int(s)] *)

Definition digit (c : ascii) : option Z :=
  let n := nat_of_ascii c in
  if (48 <=? n)%nat && (n <=? 57)%nat then Some (Z.of_nat n - 48) else None.

(** The value of a run of decimal digits read after [acc]; [None] if a
    character is not a digit. *)
Fixpoint digits (acc : Z) (s : string) : option Z :=
  match s with
  | EmptyString => Some acc
  | String c r =>
      match digit c with
      | Some d => digits (10 * acc + d) r
      | None => None
      end
  end.

Definition unsigned (s : string) : option Z :=
  match s with
  | EmptyString => None
  | _ => digits 0 s
  end.

(** [int(s)] in base 10: surrounding whitespace, an optional sign and
    at least one digit; [None] stands for [ValueError]. *)
Definition int (s : string) : option Z :=
  match PyStr.strip s with
  | String "+" r => unsigned r
  | String "-" r => Z.opp <$> unsigned r
  | t => unsigned t
  end.

(** *** [float(s)] *)

(** The leading decimal digits of [s]: their value read after [acc],
    how many there are added to [n], and the rest of the string. *)
Fixpoint span_digits (acc n : Z) (s : string) : Z * Z * string :=
  match s with
  | EmptyString => (acc, n, s)
  | String c r =>
      match digit c with
      | Some d => span_digits (10 * acc + d) (n + 1) r
      | None => (acc, n, s)
      end
  end.

(** The exponent part: nothing, or [e]/[E], an optional sign and at
    least one digit. *)
Definition exponent (s : string) : option Z :=
  match s with
  | EmptyString => Some 0
  | String c r =>
      if Ascii.eqb c "e" || Ascii.eqb c "E" then
        match r with
        | String "+" d => unsigned d
        | String "-" d => Z.opp <$> unsigned d
        | _ => unsigned r
        end
      else None
  end.

(** A decimal numeral [digits [. digits] [exponent]] with at least one
    digit before or after the point, as the pair [(m, e)] of its exact
    value [m * 10^e]. *)
Definition decimal (s : string) : option (Z * Z) :=
  let '(ip, n1, r1) := span_digits 0 0 s in
  let '(m, n2, r2) :=
    match r1 with
    | String "." r => span_digits ip 0 r
    | _ => (ip, 0, r1)
    end in
  if n1 + n2 =? 0 then None
  else e ← exponent r2; Some (m, e - n2).

(** The binary64 number nearest to [n / d] (ties to even), for
    positive [n] and [d]; overflow gives an infinity. *)
Definition round_ratio (sg : bool) (n d : Z) : spec_float :=
  let '(q, e, l) := SFdiv_core_binary prec emax n 0 d 0 in
  binary_round_aux prec emax sg q e l.

Definition of_decimal (sg : bool) (m e : Z) : spec_float :=
  if m =? 0 then S754_zero sg
  else if 0 <=? e then round_ratio sg (m * 10 ^ e) 1
  else round_ratio sg m (10 ^ (- e)).

(** [float(s)]: surrounding whitespace, an optional sign, then [inf],
    [infinity] or [nan] in any case, or a decimal numeral, correctly
    rounded; [None] stands for [ValueError]. *)
Definition float (s : string) : option spec_float :=
  let t := PyStr.strip s in
  let '(sg, u) :=
    match t with
    | String "+" r => (false, r)
    | String "-" r => (true, r)
    | _ => (false, t)
    end in
  let w := PyStr.lower u in
  if String.eqb w "inf" || String.eqb w "infinity" then Some (S754_infinity sg)
  else if String.eqb w "nan" then Some S754_nan
  else '(m, e) ← decimal u; Some (of_decimal sg m e).

(** *** [str(v)], as the [%s] conversion applies it *)

Definition str_of_Z (z : Z) : string := NilZero.string_of_int (Z.to_int z).

Section Str.
(** The decimal text of a float ([str(f)]) is the interpreter's
    shortest-digits printer; it is a parameter here. *)
Variable float_str : spec_float -> string.

Definition str (v : val) : string :=
  match v with
  | VNone => "None"
  | VBool true => "True"
  | VBool false => "False"
  | VInt z => str_of_Z z
  | VFloat f => float_str f
  | VStr s => s
  end.
End Str.

End Py.

(* ===================================================================== *)
(** ** The subprocess interface *)
(* ===================================================================== *)

(** A handler is a tree of interactions with the karaf client: it
    returns, ends the process ([exit_json], [fail_json], an uncaught
    exception), or calls [module.run_command] and goes on with whatever
    the command answers. *)
Module Proc.

(** What [module.run_command] returns: [(rc, out, err)]. *)
Record response := Response { rc : Z; out : string; err : string }.

(** How the process ends. *)
Inductive outcome :=
| ExitJson (fields : gmap string Py.val)
| FailJson (msg : Py.val)
| Uncaught (e : Py.exn).

Inductive t (A : Type) :=
| Ret (a : A)
| Halt (o : outcome)
| Run (cmd : string) (k : response -> t A).
Arguments Ret {A} a.
Arguments Halt {A} o.
Arguments Run {A} cmd k.

Fixpoint bind {A B} (p : t A) (f : A -> t B) : t B :=
  match p with
  | Ret a => f a
  | Halt o => Halt o
  | Run cmd k => Run cmd (fun r => bind (k r) f)
  end.

Notation "'do' x ':=' p 'in' k" := (bind p (fun x => k))
  (at level 10, x name, p at level 100, k at level 200).

(** An exception nobody catches ends the process. *)
Definition lift {A} (r : Py.res A) : t A :=
  match r with
  | Py.Ok a => Ret a
  | Py.Raise e => Halt (Uncaught e)
  end.

(** [run_command cmd] as an interaction. *)
Definition run_command (cmd : string) : t response := Run cmd Ret.

(** The managed system: the answer to a command, given the commands
    already issued in this invocation. *)
Definition world := list string -> string -> response.

(** Running a handler against a world: the commands issued, in order,
    and how it ended. *)
Fixpoint exec {A} (w : world) (hist : list string) (p : t A)
  : list string * (outcome + A) :=
  match p with
  | Ret a => (hist, inr a)
  | Halt o => (hist, inl o)
  | Run cmd k => exec w (hist ++ [cmd]) (k (w hist cmd))
  end.

(** The commands a run issues, and its end. *)
Definition trace {A} (w : world) (p : t A) : list string := (exec w [] p).1.
Definition final {A} (w : world) (p : t A) : outcome + A := (exec w [] p).2.

End Proc.

(** The desired state of both modules. *)
Inductive state := present | absent.

Definition state_eqb (a b : state) : bool :=
  match a, b with
  | present, present | absent, absent => true
  | _, _ => false
  end.

Definition state_str (s : state) : string :=
  match s with
  | present => "present"
  | absent => "absent"
  end.

(** The double quote of the command templates. *)
Definition dq : string := String (ascii_of_nat 34) EmptyString.

(** The line separator of [out.split]. *)
Definition nl : ascii := ascii_of_nat 10.

(* ===================================================================== *)
(** ** karaf_config.py *)
(* ===================================================================== *)

Module KarafConfig.
Import Py Proc PyStr.

Definition PACKAGE_STATE_MAP (s : state) : string :=
  match s with
  | present => "property-set"
  | absent => "property-delete"
  end.

Definition _BOOL_TYPES : gset string :=
  list_to_set ["true"; "false"; "yes"; "no"; "y"; "n"]%string.

Definition check_bool (value : string) : res bool :=
  if negb (bool_decide (lower value ∈ _BOOL_TYPES)) then Raise ValueError
  else
    let v := lower value in
    Ok (String.eqb v "true" || String.eqb v "yes" || String.eqb v "y").

(** The builtins [int], [float] and [str] as constructors that raise
    [ValueError] on a string they do not accept. *)
Definition of_option {A} (o : option A) : res A :=
  match o with
  | Some a => Ok a
  | None => Raise ValueError
  end.

Definition constructors : list (string -> res val) :=
  [ fun s => let! z := of_option (int s) in Ok (VInt z);
    fun s => let! f := of_option (float s) in Ok (VFloat f);
    fun s => let! b := check_bool s in Ok (VBool b);
    fun s => Ok (VStr s) ].

(** The [for c in constructors: try: return c(val) except ValueError:
    pass] loop; leaving the loop returns [None]. *)
Fixpoint convert_loop (cs : list (string -> res val)) (val : string) : res Py.val :=
  match cs with
  | [] => Ok VNone
  | c :: cs' =>
      match c val with
      | Ok v => Ok v
      | Raise ValueError => convert_loop cs' val
      | Raise e => Raise e
      end
  end.

Definition convert (val : string) : res Py.val := convert_loop constructors val.

(** The module object: the parameters are passed separately, as in
    the source; what is left is the check-mode flag. *)
Record module := Module { check_mode : bool }.

(** [client_bin "karaf_cmd"] *)
Definition client_call (client_bin karaf_cmd : string) : string :=
  client_bin +:+ " " +:+ dq +:+ karaf_cmd +:+ dq.

(** The body of [for line in lines] in [existing_properties]. *)
Fixpoint parse_lines (lines : list string) (result : gmap string val)
  : res (gmap string val) :=
  match lines with
  | [] => Ok result
  | line :: rest =>
      if negb (contains "=" line) then parse_lines rest result
      else
        let i := find "=" line in
        let prop_name := strip (slice_to line i) in
        let! value := convert (strip (slice_from line (i + 1))) in
        parse_lines rest (<[prop_name := value]> result)
  end.

Definition keys (d : gmap string val) : list string := (map_to_list d).*1.
Definition items (d : gmap string val) : list (string * val) := map_to_list d.

Definition property_get_cmd (client_bin name : string) (new_properties : gmap string val)
  : string :=
  let cmd_base prop := "config:property-get --raw --pid " +:+ name +:+ " " +:+ prop in
  client_call client_bin (join " && " (cmd_base <$> keys new_properties)).

Definition existing_properties (m : module) (client_bin name : string)
    (new_properties : gmap string val) : Proc.t (gmap string val) :=
  do r := run_command (property_get_cmd client_bin name new_properties) in
  let lines := split nl (out r) in
  lift (parse_lines lines ∅).

(** [dict(changed=False, original_message='', message='')] *)
Definition initial_result : gmap string val :=
  <["changed" := VBool false]>
    (<["original_message" := VStr ""]> (<["message" := VStr ""]> ∅)).

(** [[k for k,v in new_properties.items()
      if k not in existing_props or existing_props[k] != v]] *)
Definition need_change (new_properties existing_props : gmap string val) : list string :=
  (List.filter (fun kv => match existing_props !! kv.1 with
                          | None => true
                          | Some w => neqb w kv.2
                          end) (items new_properties)).*1.

(** [[k for k in properties.keys() if k in existing_props]] *)
Definition need_delete (properties existing_props : gmap string val) : list string :=
  List.filter (fun k => bool_decide (is_Some (existing_props !! k))) (keys properties).

(** [module.params] *)
Record params := Params {
  name : string;
  state_ : state;
  properties : gmap string val;
  client_bin : string
}.

Section Handlers.
Variable float_str : spec_float -> string.

Definition property_set_cmd (client_bin name : string)
    (new_properties : gmap string val) (need : list string) : string :=
  let cmd_base (kv : string * val) :=
    "config:property-set --pid " +:+ dq +:+ name +:+ dq +:+ " "
      +:+ kv.1 +:+ " " +:+ str float_str kv.2 in
  client_call client_bin
    (join " && " (cmd_base <$> List.filter (fun kv => bool_decide (kv.1 ∈ need))
                                     (items new_properties))).

Definition config_property_set (client_bin : string) (m : module) (name : string)
    (new_properties : gmap string val) : Proc.t (gmap string val) :=
  let result := initial_result in
  do existing_props := existing_properties m client_bin name new_properties in
  let need_change := need_change new_properties existing_props in
  match need_change with
  | [] => Ret result
  | _ =>
      let result := <["changed" := VBool true]> result in
      if check_mode m then Ret result
      else
        do _ := run_command
                  (property_set_cmd client_bin name new_properties need_change) in
        Ret result
  end.

Definition property_delete_cmd (client_bin name : string)
    (properties : gmap string val) (need : list string) : string :=
  let cmd_base k :=
    "config:property-delete --pid " +:+ dq +:+ name +:+ dq +:+ " " +:+ k in
  client_call client_bin
    (join " && " (cmd_base <$> List.filter (fun k => bool_decide (k ∈ need))
                                     (keys properties))).

Definition config_property_delete (client_bin : string) (m : module) (name : string)
    (properties : gmap string val) : Proc.t (gmap string val) :=
  let result := initial_result in
  do existing_props := existing_properties m client_bin name properties in
  let need_delete := need_delete properties existing_props in
  match need_delete with
  | [] => Ret result
  | _ =>
      let result := <["changed" := VBool true]> result in
      if check_mode m then Ret result
      else
        do _ := run_command
                  (property_delete_cmd client_bin name properties need_delete) in
        Ret result
  end.

Definition main (m : module) (p : params) : Proc.t Empty_set :=
  do result :=
    match state_ p with
    | present => config_property_set (client_bin p) m (name p) (properties p)
    | absent => config_property_delete (client_bin p) m (name p) (properties p)
    end in
  Halt (ExitJson result).
End Handlers.

End KarafConfig.

(* ===================================================================== *)
(** ** karaf_feature.py *)
(* ===================================================================== *)

Module KarafFeature.
Import Py Proc PyStr.

Definition PACKAGE_STATE_MAP (s : state) : string :=
  match s with
  | present => "install"
  | absent => "uninstall"
  end.

Definition FEATURE_STATE_UNINSTALLED : string := "Uninstalled".

(** ["{0} 'feature:{1}'".format(client, action)] *)
Definition CLIENT_KARAF_COMMAND (client action : string) : string :=
  client +:+ " 'feature:" +:+ action +:+ "'".

(** ["{0} 'feature:{1} {2}'".format(client, action, arg)] *)
Definition CLIENT_KARAF_COMMAND_WITH_ARGS (client action arg : string) : string :=
  client +:+ " 'feature:" +:+ action +:+ " " +:+ arg +:+ "'".

Definition parse_error (string_ : string) : string :=
  let reason := "reason: "%string in
  match index reason string_ with
  | Some i => strip (slice_from string_ (Z.of_nat (i + String.length reason)))
  | None => string_
  end.

(** Both commands return [(True, cmd, out, err)] unless the client
    exits with a non-zero code, which is fatal. *)
Definition feature_command (cmd : string) : Proc.t (bool * string * string * string) :=
  do r := run_command cmd in
  if negb (rc r =? 0) then Halt (FailJson (VStr (parse_error (out r))))
  else Ret (true, cmd, out r, err r).

Definition install_feature (client_bin feature_name : string)
  : Proc.t (bool * string * string * string) :=
  feature_command
    (CLIENT_KARAF_COMMAND_WITH_ARGS client_bin (PACKAGE_STATE_MAP present) feature_name).

Definition uninstall_feature (client_bin feature_name : string)
  : Proc.t (bool * string * string * string) :=
  feature_command
    (CLIENT_KARAF_COMMAND_WITH_ARGS client_bin (PACKAGE_STATE_MAP absent) feature_name).

(** Truth value of the [version] parameter: [None] and the empty
    string are false. *)
Definition given (version : option string) : bool :=
  match version with
  | Some v => truthy (VStr v)
  | None => false
  end.

(** The [for line in lines] loop of [is_feature_installed]. *)
Fixpoint scan_lines (feature_name : string) (feature_version : option string)
    (lines : list string) (is_installed : bool) : res bool :=
  match lines with
  | [] => Ok is_installed
  | line :: rest =>
      let feature_data := split "|" line in
      if (2 <? length feature_data)%nat then
        let! f0 := getitem feature_data 0 in
        let name := strip f0 in
        let! f1 := getitem feature_data 1 in
        let version := strip f1 in
        let! f3 := getitem feature_data 3 in
        let state := strip f3 in
        if negb (String.eqb state FEATURE_STATE_UNINSTALLED) then
          if given feature_version then
            if String.eqb name feature_name
               && bool_decide (Some version = feature_version)
            then scan_lines feature_name feature_version rest true
            else scan_lines feature_name feature_version rest is_installed
          else
            if String.eqb name feature_name
            then scan_lines feature_name feature_version rest true
            else scan_lines feature_name feature_version rest is_installed
        else scan_lines feature_name feature_version rest is_installed
      else scan_lines feature_name feature_version rest is_installed
  end.

Definition list_cmd (client_bin : string) : string :=
  CLIENT_KARAF_COMMAND client_bin "list".

(** What [is_feature_installed] computes from the listing. *)
Definition installed_in (out : string) (feature_name : string)
    (feature_version : option string) : res bool :=
  let lines := split nl out in
  scan_lines feature_name feature_version lines false.

Definition is_feature_installed (client_bin feature_name : string)
    (feature_version : option string) : Proc.t bool :=
  do r := run_command (list_cmd client_bin) in
  lift (installed_in (out r) feature_name feature_version).

(** [module.params]; [force] is kept as the raw value received. *)
Record params := Params {
  name : string;
  version : option string;
  state_ : state;
  force : val;
  client_bin : string
}.

Definition full_qualified_name (p : params) : string :=
  match version p with
  | Some v => if given (version p) then name p +:+ "/" +:+ v else name p
  | None => name p
  end.

Definition unchanged_result (p : params) : gmap string val :=
  <["changed" := VBool false]>
    (<["name" := VStr (full_qualified_name p)]>
       (<["state" := VStr (state_str (state_ p))]> ∅)).

Definition final_result (p : params) (changed : bool) (cmd out err : string)
  : gmap string val :=
  <["changed" := VBool changed]>
    (<["cmd" := VStr cmd]>
       (<["name" := VStr (full_qualified_name p)]>
          (<["state" := VStr (state_str (state_ p))]>
             (<["stdout" := VStr out]> (<["stderr" := VStr err]> ∅))))).

Definition main (p : params) : Proc.t Empty_set :=
  let full_qualified_name := full_qualified_name p in
  if eqb (force p) (VBool true) && state_eqb (state_ p) present then
    (* the two calls after [fail_json] are never reached *)
    Halt (FailJson (force p))
  else
    do is_installed :=
      is_feature_installed (client_bin p) (name p) (version p) in
    if (is_installed && state_eqb (state_ p) present)
       || (state_eqb (state_ p) absent && negb is_installed)
    then Halt (ExitJson (unchanged_result p))
    else
      do r :=
        match state_ p with
        | present => install_feature (client_bin p) full_qualified_name
        | absent => uninstall_feature (client_bin p) full_qualified_name
        end in
      let '(changed, cmd, out, err) := r in
      Halt (ExitJson (final_result p changed cmd out err)).

End KarafFeature.

(* ===================================================================== *)
(** ** The behaviour the specification words, for comparison *)
(* ===================================================================== *)

Module ConvertSpec.
Import Py PyStr.

(** The boolean words of the specification: case-insensitively, [true],
    [yes] and [y] stand for true, [false], [no] and [n] for false, and
    nothing else is a boolean word. *)
Definition bool_word (s : string) : option bool :=
  let v := lower s in
  if bool_decide (v ∈ ["true"; "yes"; "y"]%string) then Some true
  else if bool_decide (v ∈ ["false"; "no"; "n"]%string) then Some false
  else None.

(** Conversion as the specification words it: integer, else float,
    else boolean word, else the string itself. *)
Definition convert_spec (s : string) : val :=
  match int s with
  | Some z => VInt z
  | None =>
      match float s with
      | Some f => VFloat f
      | None =>
          match bool_word s with
          | Some b => VBool b
          | None => VStr s
          end
      end
  end.
End ConvertSpec.

Module ReaderSpec.
Import Py PyStr.

(** Number of occurrences of [c] in [s]. *)
Fixpoint count (c : ascii) (s : string) : nat :=
  match s with
  | EmptyString => 0%nat
  | String d r => ((if Ascii.eqb d c then 1 else 0) + count c r)%nat
  end.

(** A line contributes a property when parsing it alone yields a
    non-empty mapping. *)
Definition contributes (line : string) : Prop :=
  exists m k v, KarafConfig.parse_lines [line] ∅ = Ok m /\ m !! k = Some v.

(** The mapping the loop builds, without the exception plumbing. *)
Fixpoint observed_of (lines : list string) (result : gmap string val)
  : gmap string val :=
  match lines with
  | [] => result
  | line :: rest =>
      if contains "=" line then
        let i := find "=" line in
        observed_of rest
          (<[strip (slice_to line i) :=
               ConvertSpec.convert_spec (strip (slice_from line (i + 1)))]> result)
      else observed_of rest result
  end.
End ReaderSpec.

Module ConfigSpec.
Import Py Proc PyStr KarafConfig.

(** The PropertySet the reader builds from the client's answer to the
    property-get query, the first command of an invocation. *)
Definition observed (w : world) (client_bin name : string)
    (new_properties : gmap string val) : gmap string val :=
  ReaderSpec.observed_of
    (split nl (out (w [] (property_get_cmd client_bin name new_properties)))) ∅.

(** The result record with its [changed] field set. *)
Definition result_with (changed : bool) : gmap string val :=
  <["changed" := VBool changed]> initial_result.

(** The mutating invocations a pass is expected to issue: the batched
    command when a key needs changing outside check mode, none
    otherwise. *)
Definition mutations (m : module) (need : list string) (cmd : string) : list string :=
  match need with
  | [] => []
  | _ => if check_mode m then [] else [cmd]
  end.

Definition nonempty (need : list string) : bool :=
  match need with
  | [] => false
  | _ => true
  end.
End ConfigSpec.

(** Concrete worlds and parameters the statements below are tried on. *)
Module Samples.
Import Py Proc.

(** A client that answers the first command with [o] and exit code 0,
    and every later command with the response [later]. *)
Definition answering (o : string) (later : response) : world :=
  fun hist _ =>
    match hist with
    | [] => Response 0 o ""
    | _ => later
    end.

Definition no_float : spec_float -> string := fun _ => "nan"%string.

Definition kar_params : KarafConfig.params :=
  KarafConfig.Params "org.apache.karaf.kar" present
    (<["noAutoStartBundles" := VBool false]> ∅) "/opt/karaf/bin/client".

Definition camel (v : option string) (s : state) (force : val) : KarafFeature.params :=
  KarafFeature.Params "camel-jms" v s force "/opt/karaf/bin/client".

Definition listing : string :=
  "camel-jms | 2.18.1 | x | Started | camel | JMS" +:+ String nl
  "camel-ftp | 2.18.1 |   | Uninstalled | camel | FTP".
End Samples.

Module FeatureSpec.
Import Py PyStr KarafFeature.

(** A line that splits on [|] into exactly three fields: it passes the
    [len(feature_data) > 2] test and has no field 3. *)
Definition three_fields (line : string) : bool :=
  (length (split "|" line) =? 3)%nat.

(** The matching policy in the specification's words: the line is a
    feature record (more than two fields, name at 0, version at 1,
    state at 3, all trimmed) whose state is not [Uninstalled], whose
    name is the requested one and, if a version was requested, whose
    version is the requested one. *)
Definition record_matches (feature_name : string) (feature_version : option string)
    (line : string) : bool :=
  let fd := split "|" line in
  match fd !! 0%nat, fd !! 1%nat, fd !! 3%nat with
  | Some f0, Some f1, Some f3 =>
      negb (String.eqb (strip f3) FEATURE_STATE_UNINSTALLED)
      && String.eqb (strip f0) feature_name
      && (if given feature_version
          then bool_decide (Some (strip f1) = feature_version)
          else true)
  | _, _, _ => false
  end.

Definition spec_installed (out : string) (feature_name : string)
    (feature_version : option string) : bool :=
  existsb (record_matches feature_name feature_version) (split nl out).
End FeatureSpec.

Module FeatureRun.
Import Py PyStr KarafFeature.

(** The one command that brings the feature to the desired state:
    [feature:install] or [feature:uninstall] of the qualified name. *)
Definition action_cmd (p : params) : string :=
  CLIENT_KARAF_COMMAND_WITH_ARGS (client_bin p) (PACKAGE_STATE_MAP (state_ p))
    (full_qualified_name p).
End FeatureRun.

Module ReaderOrder.
Import Py PyStr.

(** The property a line names, if it names one. *)
Definition key_of (line : string) : option string :=
  if contains "=" line then Some (strip (slice_to line (find "=" line))) else None.

(** The value a line that names a property gives it. *)
Definition value_of (line : string) : val :=
  ConvertSpec.convert_spec (strip (slice_from line (find "=" line + 1))).

(** No line of [lines] names the property [k]. *)
Definition silent_on (k : string) (lines : list string) : bool :=
  forallb (fun line => negb (bool_decide (key_of line = Some k))) lines.

(** No line of [lines] names any property. *)
Definition no_property (lines : list string) : bool :=
  forallb (fun line => negb (contains "=" line)) lines.
End ReaderOrder.

Module RoundTripSpec.
Import Py.

(** The values whose text the reader converts back to themselves:
    integers and booleans. *)
Definition exact (v : val) : bool :=
  match v with
  | VInt _ | VBool _ => true
  | _ => false
  end.
End RoundTripSpec.

Module CommandSpec.
Import Py PyStr.

(** One invocation of the client that carries the karaf commands
    [parts], joined by the sequencing separator, between double
    quotes. *)
Definition batched (client_bin : string) (parts : list string) : string :=
  client_bin +:+ " " +:+ dq +:+ join " && " parts +:+ dq.

(** The karaf commands that read, set and delete the property [k] of
    the configuration [name]. *)
Definition get_part (name k : string) : string :=
  "config:property-get --raw --pid " +:+ name +:+ " " +:+ k.

Definition set_part (name k v : string) : string :=
  "config:property-set --pid " +:+ dq +:+ name +:+ dq +:+ " " +:+ k +:+ " " +:+ v.

Definition delete_part (name k : string) : string :=
  "config:property-delete --pid " +:+ dq +:+ name +:+ dq +:+ " " +:+ k.

(** The text of the desired value of [k]. *)
Definition text (float_str : spec_float -> string) (props : gmap string val)
    (k : string) : string :=
  match props !! k with
  | Some v => str float_str v
  | None => EmptyString
  end.

(** The query for the desired properties. *)
Definition query (client_bin name : string) (props : gmap string val) : string :=
  batched client_bin (get_part name <$> (map_to_list props).*1).

(** The batched command that sets the properties [need] to their
    desired values, and the one that deletes them. *)
Definition set_cmd (float_str : spec_float -> string) (client_bin name : string)
    (props : gmap string val) (need : list string) : string :=
  batched client_bin ((fun k => set_part name k (text float_str props k)) <$> need).

Definition delete_cmd (client_bin name : string) (need : list string) : string :=
  batched client_bin (delete_part name <$> need).
End CommandSpec.

(* ===================================================================== *)
(** ** Properties of the string primitives *)
(* ===================================================================== *)

Section StringFacts.
Import PyStr.

Lemma take_app_length (pre post : string) :
  take (String.length pre) (pre +:+ post) = pre.
Proof. induction pre as [|c pre IH]; simpl; [by destruct post | by rewrite IH]. Qed.

Lemma drop_app_length (pre post : string) :
  drop (String.length pre) (pre +:+ post) = post.
Proof. induction pre as [|c pre IH]; simpl; [by destruct post | done]. Qed.

Lemma length_app (s t : string) :
  String.length (s +:+ t) = (String.length s + String.length t)%nat.
Proof. induction s as [|c s IH]; simpl; [done | by rewrite IH]. Qed.

(** A string that contains [c] splits at the first [c], and [find]
    returns the length of the part before it. *)
Lemma contains_find (c : ascii) (s : string) :
  contains c s = true ->
  exists pre post,
    s = pre +:+ String c post /\ contains c pre = false /\
    find c s = Z.of_nat (String.length pre).
Proof.
  induction s as [|d s IH]; simpl; [done |].
  destruct (Ascii.eqb d c) eqn:E.
  - intros _. apply Ascii.eqb_eq in E as ->.
    by exists EmptyString, s.
  - intros H. destruct (IH H) as (pre & post & -> & Hpre & Hf).
    exists (String d pre), post. simpl. rewrite E, Hf. split_and!; [done..|].
    destruct (String.length pre); simpl; [done | lia].
Qed.

Lemma slice_at_first (c : ascii) (pre post : string) :
  let s := pre +:+ String c post in
  let i := Z.of_nat (String.length pre) in
  slice_to s i = pre /\ slice_from s (i + 1) = post.
Proof.
  simpl. unfold slice_to, slice_from, bound.
  rewrite length_app. simpl.
  destruct (Z.ltb_spec (Z.of_nat (String.length pre)) 0); [lia |].
  destruct (Z.ltb_spec (Z.of_nat (String.length pre) + 1) 0); [lia |].
  rewrite Nat2Z.id.
  replace (Z.to_nat (Z.of_nat (String.length pre) + 1)) with (S (String.length pre)) by lia.
  rewrite Nat.min_r by lia. rewrite Nat.min_r by lia.
  split; [apply take_app_length |].
  change (S (String.length pre)) with (String.length (String c pre)).
  clear. induction pre as [|d pre IH]; simpl; [done | exact IH].
Qed.

Lemma contains_false_app (c : ascii) (pre post : string) :
  contains c (pre +:+ post) = contains c pre || contains c post.
Proof.
  induction pre as [|d pre IH]; simpl; [done |].
  by destruct (Ascii.eqb d c).
Qed.

End StringFacts.

(* ===================================================================== *)
(** ** Value conversion *)
(* ===================================================================== *)

Section ConvertFacts.
Import Py PyStr KarafConfig ConvertSpec.

Lemma elem_of_BOOL_TYPES (v : string) :
  v ∈ _BOOL_TYPES <-> v ∈ ["true"; "false"; "yes"; "no"; "y"; "n"]%string.
Proof. unfold _BOOL_TYPES. by rewrite elem_of_list_to_set. Qed.

Lemma check_bool_word (s : string) :
  check_bool s = match bool_word s with
                 | Some b => Ok b
                 | None => Raise ValueError
                 end.
Proof.
  unfold check_bool, bool_word.
  generalize (lower s). intros v.
  destruct (bool_decide (v ∈ _BOOL_TYPES)) eqn:E; simpl.
  - apply bool_decide_eq_true in E. apply elem_of_BOOL_TYPES in E.
    rewrite !elem_of_cons, elem_of_nil in E.
    destruct E as [->|[->|[->|[->|[->|[->|[]]]]]]]; reflexivity.
  - apply bool_decide_eq_false in E. rewrite elem_of_BOOL_TYPES in E.
    rewrite !bool_decide_eq_false_2; [done | |];
      intros H; apply E; rewrite !elem_of_cons, ?elem_of_nil in *; tauto.
Qed.

Lemma convert_cascade (s : string) : convert s = Ok (convert_spec s).
Proof.
  unfold convert, convert_spec, constructors. simpl.
  destruct (int s); simpl; [done |].
  destruct (float s); simpl; [done |].
  rewrite check_bool_word. by destruct (bool_word s).
Qed.

End ConvertFacts.

(** C3. Value conversion never fails and follows a strict fallback
    order: for every input string [convert] yields the integer if
    [int] accepts the string, else the float if [float] accepts it,
    else the boolean if the string is, in any case, one of the six words
    true/yes/y (true) and false/no/n (false), and else the string
    itself, unchanged.  In particular ["42"] converts to the integer 42,
    ["3.14"] to the binary64 number nearest to 3.14, ["true"] to true,
    ["No"] to false and ["hello"] to itself. *)
Theorem convert_total_ordered :
  (forall s : string,
      KarafConfig.convert s = Py.Ok (ConvertSpec.convert_spec s)) /\
  (forall s : string,
      ConvertSpec.bool_word s =
        if bool_decide (PyStr.lower s ∈ ["true"; "yes"; "y"]%string) then Some true
        else if bool_decide (PyStr.lower s ∈ ["false"; "no"; "n"]%string) then Some false
        else None) /\
  KarafConfig.convert "42" = Py.Ok (Py.VInt 42) /\
  (exists m e,
      KarafConfig.convert "3.14" = Py.Ok (Py.VFloat (S754_finite false m e)) /\
      e = -51 /\ Z.pos (digits2_pos m) = Py.prec /\
      2 * Z.abs (100 * Z.pos m - 314 * 2 ^ 51) <= 100) /\
  KarafConfig.convert "true" = Py.Ok (Py.VBool true) /\
  KarafConfig.convert "No" = Py.Ok (Py.VBool false) /\
  KarafConfig.convert "hello" = Py.Ok (Py.VStr "hello").
Proof.
  split_and!.
  - apply convert_cascade.
  - reflexivity.
  - vm_compute; reflexivity.
  - exists 7070651414971679%positive, (-51).
    split_and!; [vm_compute; reflexivity | reflexivity | reflexivity | vm_compute; discriminate].
  - vm_compute; reflexivity.
  - vm_compute; reflexivity.
  - vm_compute; reflexivity.
Qed.

(* ===================================================================== *)
(** ** Reading the observed properties *)
(* ===================================================================== *)

Section ReaderFacts.
Import Py PyStr KarafConfig ReaderSpec.

(** Parsing never raises. *)
Lemma parse_lines_observed (lines : list string) (result : gmap string val) :
  parse_lines lines result = Ok (observed_of lines result).
Proof.
  revert result. induction lines as [|line rest IH]; intros result; simpl; [done |].
  destruct (contains "=" line); simpl; [| apply IH].
  rewrite convert_cascade. simpl. apply IH.
Qed.

Lemma parse_line_skip (line : string) (rest : list string) (result : gmap string val) :
  contains "=" line = false ->
  parse_lines (line :: rest) result = parse_lines rest result.
Proof. intros H. simpl. by rewrite H. Qed.

Lemma parse_line_take (pre post : string) (rest : list string)
    (result : gmap string val) :
  contains "=" pre = false ->
  parse_lines ((pre +:+ String "=" post) :: rest) result =
    parse_lines rest
      (<[strip pre := ConvertSpec.convert_spec (strip post)]> result).
Proof.
  intros Hpre. simpl.
  rewrite contains_false_app, Hpre. simpl. rewrite ?Ascii.eqb_refl. simpl.
  assert (Hc : contains "=" (pre +:+ String "=" post) = true).
  { rewrite contains_false_app. simpl. rewrite ?Ascii.eqb_refl. apply orb_true_r. }
  destruct (contains_find _ _ Hc) as (pre' & post' & Heq & Hpre' & Hfind).
  assert (pre' = pre /\ post' = post) as [-> ->].
  { clear Hfind Hc. revert pre' Heq Hpre'.
    induction pre as [|c pre IH]; intros [|c' pre'] Heq Hpre'; simpl in *.
    - by inversion Heq.
    - inversion Heq; subst. by rewrite Ascii.eqb_refl in Hpre'.
    - inversion Heq; subst. by rewrite Ascii.eqb_refl in Hpre.
    - inversion Heq; subst.
      destruct (Ascii.eqb c' "="); [done |].
      destruct (IH Hpre pre' H1 Hpre') as [-> ->]. done. }
  rewrite Hfind.
  destruct (slice_at_first "=" pre post) as [-> ->].
  by rewrite convert_cascade.
Qed.

End ReaderFacts.

(** C8, as the claim states it, fails: the line [a=b=c] holds two
    separators and still contributes the property [a]. *)
Lemma two_separators_contribute :
  ~ (ReaderSpec.contributes "a=b=c" <-> ReaderSpec.count "=" "a=b=c" = 1%nat).
Proof.
  intros [H _]. enough (ReaderSpec.count "=" "a=b=c" = 1%nat) by discriminate.
  apply H. exists {[ "a"%string := Py.VStr "b=c" ]}, "a"%string, (Py.VStr "b=c").
  split; [vm_compute; reflexivity | apply lookup_singleton_eq].
Qed.

(** C8, amended. A line of the property-get output contributes a
    property exactly when it contains at least one [=]: a line without
    one is skipped and leaves the mapping as it was; any other line is
    cut at its first [=], and the trimmed text before it is bound to the
    conversion of the trimmed text after it (which may itself hold
    further [=]). *)
Theorem property_line_parsing (line : string) (rest : list string)
    (result : gmap string Py.val) :
  (PyStr.contains "=" line = false /\
   (ReaderSpec.count "=" line = 0)%nat /\
   KarafConfig.parse_lines (line :: rest) result =
     KarafConfig.parse_lines rest result)
  \/
  (exists pre post,
      line = pre +:+ String "=" post /\ PyStr.contains "=" pre = false /\
      (1 <= ReaderSpec.count "=" line)%nat /\
      KarafConfig.parse_lines (line :: rest) result =
        KarafConfig.parse_lines rest
          (<[PyStr.strip pre := ConvertSpec.convert_spec (PyStr.strip post)]> result)).
Proof.
  destruct (PyStr.contains "=" line) eqn:E.
  - right. destruct (contains_find _ _ E) as (pre & post & -> & Hpre & _).
    exists pre, post. split_and!; [done | done | | by apply parse_line_take].
    clear E. induction pre as [|c pre IH]; simpl in *.
    + lia.
    + destruct (Ascii.eqb c "="); [lia | by apply IH].
  - left. split_and!; [done | | by apply parse_line_skip].
    induction line as [|c line IH]; simpl in *; [done |].
    destruct (Ascii.eqb c "="); [done | by apply IH].
Qed.

(* ===================================================================== *)
(** ** The diff engine *)
(* ===================================================================== *)

Section DiffFacts.
Import Py KarafConfig.

Lemma elem_of_need_change (desired observed : gmap string val) (k : string) :
  k ∈ need_change desired observed <->
  exists v, desired !! k = Some v /\
            (observed !! k = None \/
             exists w, observed !! k = Some w /\ neqb w v = true).
Proof.
  unfold need_change, items. rewrite list_elem_of_fmap. split.
  - intros ([k' v] & -> & Hin). apply list_elem_of_In, filter_In in Hin as [Hin Hf].
    apply list_elem_of_In, elem_of_map_to_list in Hin. simpl in *.
    exists v. split; [done |].
    destruct (observed !! k') as [w|]; [right; eauto | by left].
  - intros (v & Hd & Ho). exists (k, v). split; [done |].
    apply list_elem_of_In, filter_In. split.
    + by apply list_elem_of_In, elem_of_map_to_list.
    + simpl. destruct Ho as [-> | (w & -> & Hne)]; done.
Qed.

Lemma elem_of_need_delete (desired observed : gmap string val) (k : string) :
  k ∈ need_delete desired observed <->
  is_Some (desired !! k) /\ is_Some (observed !! k).
Proof.
  unfold need_delete, keys.
  rewrite list_elem_of_In, filter_In, <- list_elem_of_In, bool_decide_eq_true.
  rewrite list_elem_of_fmap. split.
  - intros [([k' v] & -> & Hin) Ho]. apply elem_of_map_to_list in Hin.
    split; [by exists v | done].
  - intros [[v Hd] Ho]. split; [| done].
    exists (k, v). split; [done | by apply elem_of_map_to_list].
Qed.

Lemma NoDup_need_change (desired observed : gmap string val) :
  NoDup (need_change desired observed).
Proof.
  unfold need_change, items.
  assert (H : forall (f : string * val -> bool) (l : list (string * val)),
             NoDup l.*1 -> NoDup (List.filter f l).*1).
  { intros f l. induction l as [|[k v] l IH]; simpl; [done |].
    rewrite NoDup_cons. intros [Hk Hl]. destruct (f (k, v)); simpl; [| by apply IH].
    apply NoDup_cons. split; [| by apply IH].
    intros Hin. apply Hk. apply list_elem_of_fmap in Hin as (kv & -> & Hin).
    apply list_elem_of_fmap. exists kv. split; [done |].
    apply list_elem_of_In, filter_In in Hin as [Hin _]. by apply list_elem_of_In. }
  apply H, NoDup_fst_map_to_list.
Qed.

Lemma NoDup_need_delete (desired observed : gmap string val) :
  NoDup (need_delete desired observed).
Proof.
  unfold need_delete, keys.
  assert (H : forall (f : string -> bool) (l : list string),
             NoDup l -> NoDup (List.filter f l)).
  { intros f l. induction l as [|k l IH]; simpl; [done |].
    rewrite NoDup_cons. intros [Hk Hl]. destruct (f k); [| by apply IH].
    apply NoDup_cons. split; [| by apply IH].
    intros Hin. apply Hk.
    apply list_elem_of_In, filter_In in Hin as [Hin _]. by apply list_elem_of_In. }
  apply H, NoDup_fst_map_to_list.
Qed.

End DiffFacts.

(** C1. For state=present the keys needing change are exactly the
    desired keys that the observed PropertySet lacks or binds to a value
    that [!=] tells apart from the desired one (a comparison of values,
    the observed one being the converted value, not of their texts); for
    state=absent the keys needing deletion are exactly the desired keys
    the observed PropertySet holds.  Both are sets (no key is listed
    twice), and a key whose observed value equals the desired value is
    never in the needs-change set. *)
Theorem diff_engine_characterization (desired observed : gmap string Py.val)
    (k : string) :
  (k ∈ KarafConfig.need_change desired observed <->
     exists v, desired !! k = Some v /\
               (observed !! k = None \/
                exists w, observed !! k = Some w /\ Py.neqb w v = true)) /\
  (k ∈ KarafConfig.need_delete desired observed <->
     is_Some (desired !! k) /\ is_Some (observed !! k)) /\
  NoDup (KarafConfig.need_change desired observed) /\
  NoDup (KarafConfig.need_delete desired observed) /\
  (forall v w, desired !! k = Some v -> observed !! k = Some w ->
               Py.eqb w v = true ->
               k ∉ KarafConfig.need_change desired observed).
Proof.
  split_and!.
  - apply elem_of_need_change.
  - apply elem_of_need_delete.
  - apply NoDup_need_change.
  - apply NoDup_need_delete.
  - intros v w Hd Ho Heq Hin.
    apply elem_of_need_change in Hin as (v' & Hd' & [Hn | (w' & Ho' & Hne)]).
    + congruence.
    + rewrite Hd in Hd'. rewrite Ho in Ho'. simplify_eq.
      unfold Py.neqb in Hne. rewrite Heq in Hne. discriminate.
Qed.

(* ===================================================================== *)
(** ** The config handler *)
(* ===================================================================== *)

Section ConfigFacts.
Import Py Proc KarafConfig ConfigSpec.
Variable float_str : spec_float -> string.

Lemma exec_bind {A B} (w : world) (p : Proc.t A) (f : A -> Proc.t B) :
  forall hist,
    exec w hist (Proc.bind p f) =
      match exec w hist p with
      | (hist', inl o) => (hist', inl o)
      | (hist', inr a) => exec w hist' (f a)
      end.
Proof. induction p as [a | o | cmd k IH]; intros hist; simpl; [done | done | apply IH]. Qed.

Lemma result_unchanged : result_with false = initial_result.
Proof. unfold result_with, initial_result. by rewrite insert_insert_eq. Qed.

Lemma exec_config_property_set (w : world) (cb : string) (m : module) (n : string)
    (props : gmap string val) :
  let need := need_change props (observed w cb n props) in
  exec w [] (config_property_set float_str cb m n props) =
    (property_get_cmd cb n props
       :: mutations m need (property_set_cmd float_str cb n props need),
     inr (result_with (nonempty need))).
Proof.
  simpl. unfold config_property_set, existing_properties, run_command, observed.
  simpl. rewrite parse_lines_observed. simpl.
  destruct (need_change props _) as [|k need]; simpl.
  - by rewrite result_unchanged.
  - destruct (check_mode m); reflexivity.
Qed.

Lemma exec_config_property_delete (w : world) (cb : string) (m : module) (n : string)
    (props : gmap string val) :
  let need := need_delete props (observed w cb n props) in
  exec w [] (config_property_delete cb m n props) =
    (property_get_cmd cb n props
       :: mutations m need (property_delete_cmd cb n props need),
     inr (result_with (nonempty need))).
Proof.
  simpl. unfold config_property_delete, existing_properties, run_command, observed.
  simpl. rewrite parse_lines_observed. simpl.
  destruct (need_delete props _) as [|k need]; simpl.
  - by rewrite result_unchanged.
  - destruct (check_mode m); reflexivity.
Qed.

Lemma exec_config_main (w : world) (m : module) (p : params) :
  exec w [] (main float_str m p) =
    match state_ p with
    | present =>
        let need := need_change (properties p)
                      (observed w (client_bin p) (name p) (properties p)) in
        (property_get_cmd (client_bin p) (name p) (properties p)
           :: mutations m need
                (property_set_cmd float_str (client_bin p) (name p) (properties p) need),
         inl (ExitJson (result_with (nonempty need))))
    | absent =>
        let need := need_delete (properties p)
                      (observed w (client_bin p) (name p) (properties p)) in
        (property_get_cmd (client_bin p) (name p) (properties p)
           :: mutations m need
                (property_delete_cmd (client_bin p) (name p) (properties p) need),
         inl (ExitJson (result_with (nonempty need))))
    end.
Proof.
  unfold main. rewrite exec_bind. destruct (state_ p).
  - by rewrite exec_config_property_set.
  - by rewrite exec_config_property_delete.
Qed.

End ConfigFacts.

(* ===================================================================== *)
(** ** The text of the commands *)
(* ===================================================================== *)

Section CommandFacts.
Import Py Proc PyStr KarafConfig CommandSpec.
Variable float_str : spec_float -> string.

Lemma fmap_ext_in {A B} (f g : A -> B) (l : list A) :
  (forall x, In x l -> f x = g x) -> f <$> l = g <$> l.
Proof.
  induction l as [|x l IH]; intros H; [done |].
  rewrite !fmap_cons. f_equal; [apply H; by left |].
  apply IH. intros y Hy. apply H. by right.
Qed.

Lemma property_get_cmd_text (cb n : string) (props : gmap string val) :
  property_get_cmd cb n props = query cb n props.
Proof. reflexivity. Qed.

(** Filtering the items by membership in the keys a filter kept gives
    what that filter kept. *)
Lemma filter_kept_keys (P : string * val -> bool) (props : gmap string val) :
  List.filter (fun kv => bool_decide (kv.1 ∈ (List.filter P (map_to_list props)).*1))
    (map_to_list props) =
  List.filter P (map_to_list props).
Proof.
  apply filter_ext_in. intros [k v] Hin. simpl.
  apply list_elem_of_In, elem_of_map_to_list in Hin.
  destruct (P (k, v)) eqn:HP.
  - apply bool_decide_eq_true, list_elem_of_fmap. exists (k, v). split; [done |].
    apply list_elem_of_In, filter_In. split; [| done].
    by apply list_elem_of_In, elem_of_map_to_list.
  - apply bool_decide_eq_false. intros ([k' v'] & Hk & Hin')%list_elem_of_fmap.
    simpl in Hk. subst k'.
    apply list_elem_of_In, filter_In in Hin' as [Hin' HP'].
    apply list_elem_of_In, elem_of_map_to_list in Hin'. congruence.
Qed.

Lemma property_set_cmd_text (cb n : string) (props observed : gmap string val) :
  property_set_cmd float_str cb n props (need_change props observed) =
    set_cmd float_str cb n props (need_change props observed).
Proof.
  unfold property_set_cmd, set_cmd, client_call, batched, need_change, items.
  rewrite filter_kept_keys, <- list_fmap_compose.
  rewrite (fmap_ext_in _
             ((fun k => set_part n k (text float_str props k)) ∘ fst)); [done |].
  intros [k v] [Hin _]%filter_In. simpl.
  apply list_elem_of_In, elem_of_map_to_list in Hin.
  unfold set_part, text. by rewrite Hin.
Qed.

Lemma property_delete_cmd_text (cb n : string) (props observed : gmap string val) :
  property_delete_cmd cb n props (need_delete props observed) =
    delete_cmd cb n (need_delete props observed).
Proof.
  unfold property_delete_cmd, delete_cmd, client_call, batched, need_delete.
  rewrite (filter_ext_in (fun k => bool_decide (k ∈ List.filter
                             (fun k => bool_decide (is_Some (observed !! k)))
                             (keys props)))
             (fun k => bool_decide (is_Some (observed !! k))) (keys props));
    [done |].
  intros k Hin. destruct (bool_decide (is_Some (observed !! k))) eqn:E.
  - apply bool_decide_eq_true, list_elem_of_In, filter_In. by split.
  - apply bool_decide_eq_false.
    intros [_ E']%list_elem_of_In%filter_In. congruence.
Qed.

End CommandFacts.

(** C4. In a property-set or property-delete pass the handler issues,
    after the one property-get query, exactly one mutating invocation
    when at least one key needs changing and check mode is off, and none
    otherwise.  That invocation is the batched command: the client
    called once with one [config:property-set] (or
    [config:property-delete]) sub-command for each key that needs
    changing, joined by [ && ].  The result reports changed=true exactly
    when a key needs changing, so in check mode a needed change is
    reported without its command being issued, and with nothing to
    change the result is changed=false. *)
Theorem config_mutation_effect (float_str : spec_float -> string) (w : Proc.world)
    (client_bin : string) (m : KarafConfig.module) (name : string)
    (props : gmap string Py.val) :
  let query := CommandSpec.query client_bin name props in
  let obs := ReaderSpec.observed_of (PyStr.split nl (Proc.out (w [] query))) ∅ in
  let need := KarafConfig.need_change props obs in
  let del := KarafConfig.need_delete props obs in
  Proc.exec w [] (KarafConfig.config_property_set float_str client_bin m name props) =
    (query
       :: match need with
          | [] => []
          | _ => if KarafConfig.check_mode m then []
                 else [CommandSpec.set_cmd float_str client_bin name props need]
          end,
     inr (<["changed" := Py.VBool (ConfigSpec.nonempty need)]> KarafConfig.initial_result))
  /\
  Proc.exec w [] (KarafConfig.config_property_delete client_bin m name props) =
    (query
       :: match del with
          | [] => []
          | _ => if KarafConfig.check_mode m then []
                 else [CommandSpec.delete_cmd client_bin name del]
          end,
     inr (<["changed" := Py.VBool (ConfigSpec.nonempty del)]> KarafConfig.initial_result)).
Proof.
  cbv zeta. split.
  - pose proof (exec_config_property_set float_str w client_bin m name props) as H.
    cbv zeta in H. rewrite H. unfold ConfigSpec.observed.
    by rewrite property_set_cmd_text, property_get_cmd_text.
  - pose proof (exec_config_property_delete w client_bin m name props) as H.
    cbv zeta in H. rewrite H. unfold ConfigSpec.observed.
    by rewrite property_delete_cmd_text, property_get_cmd_text.
Qed.

Lemma config_mutation_effect_witness :
  let w := Samples.answering "noAutoStartBundles = true" (Proc.Response 0 "" "") in
  let props : gmap string Py.val := {[ "noAutoStartBundles"%string := Py.VBool false ]} in
  let query :=
    ("/opt/karaf/bin/client " +:+ dq +:+
     "config:property-get --raw --pid org.apache.karaf.kar noAutoStartBundles" +:+ dq)%string in
  let changed : gmap string Py.val :=
    <["changed"%string := Py.VBool true]>
      (<["original_message"%string := Py.VStr ""]>
         (<["message"%string := Py.VStr ""]> ∅)) in
  Proc.exec w [] (KarafConfig.config_property_set Samples.no_float "/opt/karaf/bin/client"
                    (KarafConfig.Module false) "org.apache.karaf.kar" props) =
    ([query;
      ("/opt/karaf/bin/client " +:+ dq +:+ "config:property-set --pid " +:+ dq +:+
       "org.apache.karaf.kar" +:+ dq +:+ " noAutoStartBundles False" +:+ dq)%string],
     inr changed) /\
  Proc.exec w [] (KarafConfig.config_property_delete "/opt/karaf/bin/client"
                    (KarafConfig.Module false) "org.apache.karaf.kar" props) =
    ([query;
      ("/opt/karaf/bin/client " +:+ dq +:+ "config:property-delete --pid " +:+ dq +:+
       "org.apache.karaf.kar" +:+ dq +:+ " noAutoStartBundles" +:+ dq)%string],
     inr changed).
Proof.
  pose proof (config_mutation_effect Samples.no_float
                (Samples.answering "noAutoStartBundles = true" (Proc.Response 0 "" ""))
                "/opt/karaf/bin/client" (KarafConfig.Module false)
                "org.apache.karaf.kar"
                {[ "noAutoStartBundles"%string := Py.VBool false ]}) as H.
  vm_compute in H |- *. exact H.
Defined.

(** C9. The config handler never looks at what a mutation command
    answers: two runs whose property-get query is answered alike issue
    the same commands and end with the same result, whatever exit code,
    stdout and stderr the property-set or property-delete command
    produces, and the handler always ends by [exit_json], never by a
    failure. *)
Theorem config_ignores_mutation_status (float_str : spec_float -> string)
    (w1 w2 : Proc.world) (m : KarafConfig.module) (p : KarafConfig.params) :
  w1 [] (KarafConfig.property_get_cmd (KarafConfig.client_bin p) (KarafConfig.name p)
           (KarafConfig.properties p)) =
  w2 [] (KarafConfig.property_get_cmd (KarafConfig.client_bin p) (KarafConfig.name p)
           (KarafConfig.properties p)) ->
  Proc.exec w1 [] (KarafConfig.main float_str m p) =
    Proc.exec w2 [] (KarafConfig.main float_str m p) /\
  exists fields,
    Proc.final w1 (KarafConfig.main float_str m p) = inl (Proc.ExitJson fields).
Proof.
  intros Hq. unfold Proc.final. rewrite !exec_config_main.
  unfold ConfigSpec.observed. rewrite Hq.
  split; [done |]. destruct (KarafConfig.state_ p); simpl; eauto.
Qed.

Lemma config_ignores_mutation_status_witness :
  Proc.exec (Samples.answering "noAutoStartBundles = true" (Proc.Response 0 "" "")) []
      (KarafConfig.main Samples.no_float (KarafConfig.Module false) Samples.kar_params) =
    Proc.exec (Samples.answering "noAutoStartBundles = true" (Proc.Response 1 "" "boom")) []
      (KarafConfig.main Samples.no_float (KarafConfig.Module false) Samples.kar_params) /\
  exists fields,
    Proc.final (Samples.answering "noAutoStartBundles = true" (Proc.Response 0 "" ""))
      (KarafConfig.main Samples.no_float (KarafConfig.Module false) Samples.kar_params) =
    inl (Proc.ExitJson fields).
Proof.
  apply (config_ignores_mutation_status Samples.no_float
           (Samples.answering "noAutoStartBundles = true" (Proc.Response 0 "" ""))
           (Samples.answering "noAutoStartBundles = true" (Proc.Response 1 "" "boom"))
           (KarafConfig.Module false) Samples.kar_params).
  reflexivity.
Defined.

(* ===================================================================== *)
(** ** The feature handler *)
(* ===================================================================== *)

Section FeatureFacts.
Import Py Proc PyStr KarafFeature FeatureSpec.

(** One step of the scan on a line that is not a three-field line. *)
Lemma scan_line_ok (n : string) (v : option string) (line : string)
    (rest : list string) (acc : bool) :
  three_fields line = false ->
  scan_lines n v (line :: rest) acc =
    scan_lines n v rest (acc || record_matches n v line).
Proof.
  unfold three_fields, record_matches. intros H3. simpl.
  destruct (split "|" line) as [|f0 [|f1 [|f2 [|f3 fd]]]] eqn:E; simpl in *;
    rewrite ?orb_false_r; try done.
  unfold getitem. simpl.
  destruct (String.eqb (strip f3) FEATURE_STATE_UNINSTALLED); simpl;
    [by rewrite orb_false_r |].
  destruct (given v); simpl.
  - destruct (String.eqb (strip f0) n); simpl; [| by rewrite orb_false_r].
    destruct (bool_decide (Some (strip f1) = v)); simpl;
      [by rewrite orb_true_r | by rewrite orb_false_r].
  - rewrite andb_true_r.
    destruct (String.eqb (strip f0) n); simpl;
      [by rewrite orb_true_r | by rewrite orb_false_r].
Qed.

(** One step of the scan on a three-field line: [feature_data[3]]
    raises. *)
Lemma scan_line_raises (n : string) (v : option string) (line : string)
    (rest : list string) (acc : bool) :
  three_fields line = true ->
  scan_lines n v (line :: rest) acc = Raise IndexError.
Proof.
  unfold three_fields. intros H3. simpl.
  destruct (split "|" line) as [|f0 [|f1 [|f2 [|f3 fd]]]] eqn:E; simpl in *; done.
Qed.

Lemma scan_lines_spec (n : string) (v : option string) (lines : list string) :
  forall acc,
    scan_lines n v lines acc =
      if existsb three_fields lines then Raise IndexError
      else Ok (acc || existsb (record_matches n v) lines).
Proof.
  induction lines as [|line rest IH]; intros acc.
  - simpl. by rewrite orb_false_r.
  - destruct (three_fields line) eqn:H3.
    + rewrite scan_line_raises by done. simpl. by rewrite H3.
    + rewrite scan_line_ok by done. rewrite IH. simpl. rewrite H3. simpl.
      destruct (existsb three_fields rest); [done |].
      by rewrite orb_assoc.
Qed.

Lemma installed_in_spec (o n : string) (v : option string) :
  installed_in o n v =
    if existsb three_fields (split nl o) then Raise IndexError
    else Ok (spec_installed o n v).
Proof. unfold installed_in, spec_installed. by rewrite scan_lines_spec. Qed.

Lemma exec_is_feature_installed (w : world) (cb n : string) (v : option string) :
  exec w [] (is_feature_installed cb n v) =
    ([list_cmd cb],
     match installed_in (out (w [] (list_cmd cb))) n v with
     | Ok b => inr b
     | Raise e => inl (Uncaught e)
     end).
Proof.
  unfold is_feature_installed, run_command. simpl.
  by destruct (installed_in _ n v).
Qed.

Lemma main_forced (p : params) :
  eqb (force p) (VBool true) = true -> state_ p = present ->
  main p = Halt (FailJson (force p)).
Proof. intros Hf Hs. unfold main. by rewrite Hf, Hs. Qed.

Lemma main_queries (p : params) :
  eqb (force p) (VBool true) && state_eqb (state_ p) present = false ->
  main p =
    Proc.bind (is_feature_installed (client_bin p) (name p) (version p))
      (fun is_installed =>
         if (is_installed && state_eqb (state_ p) present)
            || (state_eqb (state_ p) absent && negb is_installed)
         then Halt (ExitJson (unchanged_result p))
         else
           Proc.bind
             match state_ p with
             | present => install_feature (client_bin p) (full_qualified_name p)
             | absent => uninstall_feature (client_bin p) (full_qualified_name p)
             end
             (fun r => let '(changed, cmd, out, err) := r in
                       Halt (ExitJson (final_result p changed cmd out err)))).
Proof. intros H. unfold main. by rewrite H. Qed.

End FeatureFacts.

(** C5. In every invocation that queries the installation status and
    finds it already as desired (installed with state=present, not
    installed with state=absent), the handler ends by [exit_json] with
    changed=false, and the listing is the only command it issued. *)
Theorem feature_unchanged_path (w : Proc.world) (p : KarafFeature.params) (b : bool) :
  In (KarafFeature.list_cmd (KarafFeature.client_bin p))
     (Proc.trace w (KarafFeature.main p)) ->
  KarafFeature.installed_in
    (Proc.out (w [] (KarafFeature.list_cmd (KarafFeature.client_bin p))))
    (KarafFeature.name p) (KarafFeature.version p) = Py.Ok b ->
  (b = true /\ KarafFeature.state_ p = present) \/
  (b = false /\ KarafFeature.state_ p = absent) ->
  Proc.exec w [] (KarafFeature.main p) =
    ([KarafFeature.list_cmd (KarafFeature.client_bin p)],
     inl (Proc.ExitJson (KarafFeature.unchanged_result p))) /\
  KarafFeature.unchanged_result p !! "changed"%string = Some (Py.VBool false).
Proof.
  intros Hq Hi Hm. split; [| reflexivity].
  destruct (Py.eqb (KarafFeature.force p) (Py.VBool true)
            && state_eqb (KarafFeature.state_ p) present) eqn:Hf.
  - exfalso. apply andb_true_iff in Hf as [Hf Hs].
    unfold Proc.trace in Hq. rewrite main_forced in Hq; [done | done |].
    by destruct (KarafFeature.state_ p).
  - rewrite main_queries by done. rewrite exec_bind, exec_is_feature_installed, Hi.
    destruct Hm as [[-> ->] | [-> ->]]; reflexivity.
Qed.

Lemma feature_unchanged_path_witness :
  Proc.exec (Samples.answering Samples.listing (Proc.Response 1 "" "")) []
    (KarafFeature.main (Samples.camel None present (Py.VBool false))) =
    (["/opt/karaf/bin/client 'feature:list'"%string],
     inl (Proc.ExitJson
            (KarafFeature.unchanged_result (Samples.camel None present (Py.VBool false))))) /\
  KarafFeature.unchanged_result (Samples.camel None present (Py.VBool false))
    !! "changed"%string = Some (Py.VBool false).
Proof.
  apply (feature_unchanged_path
           (Samples.answering Samples.listing (Proc.Response 1 "" ""))
           (Samples.camel None present (Py.VBool false)) true).
  - vm_compute. left. reflexivity.
  - vm_compute. reflexivity.
  - left. split; reflexivity.
Defined.

(** C10. What [is_feature_installed] returns depends only on the
    stdout of the listing: two runs whose listings have the same stdout
    end alike, whatever the exit codes and stderr, and a listing with
    an empty stdout (a failed one included) is reported as not
    installed. *)
Theorem is_feature_installed_reads_stdout_only (w1 w2 : Proc.world)
    (client_bin feature_name : string) (feature_version : option string) :
  Proc.out (w1 [] (KarafFeature.list_cmd client_bin)) =
  Proc.out (w2 [] (KarafFeature.list_cmd client_bin)) ->
  Proc.exec w1 []
    (KarafFeature.is_feature_installed client_bin feature_name feature_version) =
  Proc.exec w2 []
    (KarafFeature.is_feature_installed client_bin feature_name feature_version) /\
  forall rc err,
    Proc.final (fun _ _ => Proc.Response rc "" err)
      (KarafFeature.is_feature_installed client_bin feature_name feature_version) =
    inr false.
Proof.
  intros Ho. split.
  - rewrite !exec_is_feature_installed. by rewrite Ho.
  - intros rc err. unfold Proc.final. by rewrite exec_is_feature_installed.
Qed.

Lemma is_feature_installed_reads_stdout_only_witness :
  Proc.exec (Samples.answering Samples.listing (Proc.Response 0 "" "")) []
    (KarafFeature.is_feature_installed "client" "camel-jms" None) =
  Proc.exec (fun _ _ => Proc.Response 255 Samples.listing "Connection refused") []
    (KarafFeature.is_feature_installed "client" "camel-jms" None) /\
  forall rc err,
    Proc.final (fun _ _ => Proc.Response rc "" err)
      (KarafFeature.is_feature_installed "client" "camel-jms" None) =
    inr false.
Proof.
  apply (is_feature_installed_reads_stdout_only
           (Samples.answering Samples.listing (Proc.Response 0 "" ""))
           (fun _ _ => Proc.Response 255 Samples.listing "Connection refused")
           "client" "camel-jms" None).
  reflexivity.
Defined.

(** C2 (the code departs from it). On a listing that holds an installed
    [camel-jms] record and, further down, a line with exactly three
    fields, the matching policy says installed, but
    [is_feature_installed] raises [IndexError] on [feature_data[3]]
    instead of returning. *)
Theorem feature_match_lost_on_three_fields :
  let out := ("camel-jms | 2.18.1 | x | Started" +:+ String nl "a|b|c")%string in
  FeatureSpec.spec_installed out "camel-jms" None = true /\
  KarafFeature.installed_in out "camel-jms" None = Py.Raise Py.IndexError /\
  forall w : Proc.world,
    Proc.out (w [] (KarafFeature.list_cmd "client")) = out ->
    Proc.final w (KarafFeature.is_feature_installed "client" "camel-jms" None) =
      inl (Proc.Uncaught Py.IndexError).
Proof.
  simpl. split_and!; [vm_compute; reflexivity | vm_compute; reflexivity |].
  intros w Ho. unfold Proc.final. rewrite exec_is_feature_installed, Ho.
  vm_compute. reflexivity.
Qed.

(** C7 (the code departs from it). The line [a|b|c] splits into three
    fields, passes the more-than-two-fields test, and reading field 3
    raises [IndexError]: the parse is fatal, and the handler ends with
    that uncaught exception. *)
Theorem three_field_line_is_fatal :
  length (PyStr.split "|" "a|b|c") = 3%nat /\
  KarafFeature.installed_in "a|b|c" "a" None = Py.Raise Py.IndexError /\
  Proc.exec (fun _ _ => Proc.Response 0 "a|b|c" "") []
    (KarafFeature.main (KarafFeature.Params "a" None present (Py.VBool false) "client")) =
  (["client 'feature:list'"%string], inl (Proc.Uncaught Py.IndexError)).
Proof. split_and!; vm_compute; reflexivity. Qed.

(* ===================================================================== *)
(** ** Further properties of the feature handler *)
(* ===================================================================== *)

Section FeatureRuns.
Import Py Proc PyStr KarafFeature FeatureSpec FeatureRun.

Lemma existsb_three_fields (lines : list string) :
  existsb three_fields lines = true <->
  exists line, In line lines /\ length (split "|" line) = 3%nat.
Proof.
  rewrite existsb_exists. unfold three_fields.
  split; intros (line & Hin & H3); exists line; split; try done; by apply Nat.eqb_eq.
Qed.

(** An empty version string is falsy: it selects records as no version
    does. *)
Lemma installed_in_empty_version (o n : string) :
  installed_in o n (Some ""%string) = installed_in o n None.
Proof. by rewrite !installed_in_spec. Qed.

Lemma exec_feature_command (w : world) (hist : list string) (cmd : string) :
  exec w hist (feature_command cmd) =
    (hist ++ [cmd],
     let r := w hist cmd in
     if rc r =? 0 then inr (true, cmd, out r, err r)
     else inl (FailJson (VStr (parse_error (out r))))).
Proof.
  unfold feature_command, run_command. simpl.
  by destruct (rc (w hist cmd) =? 0).
Qed.

(** The whole run of the handler, by cases. *)
Lemma exec_feature_main (w : world) (p : params) :
  exec w [] (main p) =
    if eqb (force p) (VBool true) && state_eqb (state_ p) present
    then ([], inl (FailJson (force p)))
    else
      match installed_in (out (w [] (list_cmd (client_bin p)))) (name p) (version p) with
      | Raise e => ([list_cmd (client_bin p)], inl (Uncaught e))
      | Ok is_installed =>
          if (is_installed && state_eqb (state_ p) present)
             || (state_eqb (state_ p) absent && negb is_installed)
          then ([list_cmd (client_bin p)], inl (ExitJson (unchanged_result p)))
          else
            let r := w [list_cmd (client_bin p)] (action_cmd p) in
            ([list_cmd (client_bin p); action_cmd p],
             inl (if rc r =? 0
                  then ExitJson (final_result p true (action_cmd p) (out r) (err r))
                  else FailJson (VStr (parse_error (out r)))))
      end.
Proof.
  destruct (eqb (force p) (VBool true) && state_eqb (state_ p) present) eqn:Hf.
  - apply andb_true_iff in Hf as [Hf Hs].
    rewrite main_forced; [done | done |]. by destruct (state_ p).
  - rewrite main_queries by done.
    rewrite exec_bind, exec_is_feature_installed.
    destruct (installed_in _ (name p) (version p)) as [b | e]; [| done].
    destruct ((b && state_eqb (state_ p) present)
              || (state_eqb (state_ p) absent && negb b)); [done |].
    rewrite exec_bind. unfold action_cmd.
    destruct (state_ p); unfold install_feature, uninstall_feature;
      rewrite exec_feature_command; simpl;
      match goal with |- context [rc ?r =? 0] => by destruct (rc r =? 0) end.
Qed.

End FeatureRuns.

(** C6 (the code departs from it). The force parameter is declared
    without a type, so a force request reaches [main] as text, as in
    the module's own example [force=true]; the test [force == True] is
    then false, and with state=present the handler does not fail at
    once: it issues the listing and goes on as without force.  On a
    system that lists no feature it installs the feature and reports
    changed=true. *)
Theorem force_text_is_not_recognised :
  let p := KarafFeature.Params "camel-jms" (Some "2.18.1"%string) present
             (Py.VStr "true") "/opt/karaf/bin/client" in
  (forall w : Proc.world,
      Proc.exec w [] (KarafFeature.main p) <> ([], inl (Proc.FailJson (Py.VStr "true"))) /\
      exists rest,
        Proc.trace w (KarafFeature.main p) =
          "/opt/karaf/bin/client 'feature:list'"%string :: rest) /\
  Proc.exec (Samples.answering "" (Proc.Response 0 "Done" "")) [] (KarafFeature.main p) =
    (["/opt/karaf/bin/client 'feature:list'"%string;
      "/opt/karaf/bin/client 'feature:install camel-jms/2.18.1'"%string],
     inl (Proc.ExitJson
            (<["changed"%string := Py.VBool true]>
               (<["cmd"%string :=
                    Py.VStr "/opt/karaf/bin/client 'feature:install camel-jms/2.18.1'"]>
                  (<["name"%string := Py.VStr "camel-jms/2.18.1"]>
                     (<["state"%string := Py.VStr "present"]>
                        (<["stdout"%string := Py.VStr "Done"]>
                           (<["stderr"%string := Py.VStr ""]> ∅)))))))).
Proof.
  cbv zeta. split; [| vm_compute; reflexivity].
  intros w.
  assert (exists rest,
             Proc.trace w
               (KarafFeature.main
                  (KarafFeature.Params "camel-jms" (Some "2.18.1"%string) present
                     (Py.VStr "true") "/opt/karaf/bin/client")) =
             "/opt/karaf/bin/client 'feature:list'"%string :: rest) as [rest Hrest].
  { unfold Proc.trace. rewrite exec_feature_main.
    cbn [KarafFeature.force KarafFeature.state_ KarafFeature.client_bin Py.eqb andb].
    change (KarafFeature.list_cmd "/opt/karaf/bin/client")
      with "/opt/karaf/bin/client 'feature:list'"%string.
    destruct (KarafFeature.installed_in _ _ _) as [b | e]; [| by eexists].
    destruct ((b && _) || _); by eexists. }
  split; [| by exists rest].
  intros Heq. unfold Proc.trace in Hrest. by rewrite Heq in Hrest.
Qed.

(** X1. The scan of the listing ends in exactly one of two ways: it raises
    [IndexError] when some line splits on [|] into exactly three fields,
    and otherwise it returns what the matching policy says. *)
Theorem feature_scan_outcome (out feature_name : string)
    (feature_version : option string) :
  (KarafFeature.installed_in out feature_name feature_version = Py.Raise Py.IndexError <->
     exists line, In line (PyStr.split nl out) /\
                  length (PyStr.split "|" line) = 3%nat) /\
  (KarafFeature.installed_in out feature_name feature_version =
     Py.Ok (FeatureSpec.spec_installed out feature_name feature_version) <->
     forall line, In line (PyStr.split nl out) ->
                  length (PyStr.split "|" line) <> 3%nat).
Proof.
  rewrite installed_in_spec, <- existsb_three_fields.
  destruct (existsb FeatureSpec.three_fields (PyStr.split nl out)) eqn:E.
  - split; [done |]. split; [done |]. intros H. exfalso.
    apply existsb_three_fields in E as (line & Hin & H3). by apply (H line).
  - split; [done |]. split; [| done]. intros _ line Hin H3.
    assert (existsb FeatureSpec.three_fields (PyStr.split nl out) = true) as E'
      by (apply existsb_three_fields; eauto).
    congruence.
Qed.

(** X2. A version given as the empty string is no version at all: the
    handler runs exactly as it does without one, on every system. *)
Theorem empty_version_is_no_version (w : Proc.world) (name : string) (s : state)
    (force : Py.val) (client_bin : string) :
  Proc.exec w [] (KarafFeature.main
                    (KarafFeature.Params name (Some ""%string) s force client_bin)) =
  Proc.exec w [] (KarafFeature.main
                    (KarafFeature.Params name None s force client_bin)).
Proof.
  rewrite !exec_feature_main. simpl.
  by rewrite installed_in_empty_version.
Qed.

(** X3. When the listing shows a status other than the desired one, the
    handler issues the listing and then the one install or uninstall
    command of the qualified name, and nothing else; an exit code 0 of
    that command ends the run with changed=true and the command, its
    stdout and its stderr in the result, any other exit code ends it
    with [fail_json] carrying the parsed error of its stdout. *)
Theorem feature_change_path (w : Proc.world) (p : KarafFeature.params) (b : bool) :
  Py.eqb (KarafFeature.force p) (Py.VBool true)
    && state_eqb (KarafFeature.state_ p) present = false ->
  KarafFeature.installed_in
    (Proc.out (w [] (KarafFeature.list_cmd (KarafFeature.client_bin p))))
    (KarafFeature.name p) (KarafFeature.version p) = Py.Ok b ->
  b = negb (state_eqb (KarafFeature.state_ p) present) ->
  let cmd := FeatureRun.action_cmd p in
  let r := w [KarafFeature.list_cmd (KarafFeature.client_bin p)] cmd in
  Proc.exec w [] (KarafFeature.main p) =
    ([KarafFeature.list_cmd (KarafFeature.client_bin p); cmd],
     inl (if Proc.rc r =? 0
          then Proc.ExitJson
                 (KarafFeature.final_result p true cmd (Proc.out r) (Proc.err r))
          else Proc.FailJson (Py.VStr (KarafFeature.parse_error (Proc.out r))))) /\
  KarafFeature.final_result p true cmd (Proc.out r) (Proc.err r) !! "changed"%string =
    Some (Py.VBool true).
Proof.
  intros Hf Hi Hb. simpl. split; [| reflexivity].
  rewrite exec_feature_main, Hf, Hi, Hb.
  by destruct (KarafFeature.state_ p).
Qed.

Lemma feature_change_path_witness :
  let p := Samples.camel None absent (Py.VBool false) in
  let w := Samples.answering Samples.listing (Proc.Response 1 "Error, reason: busy " "") in
  Proc.exec w [] (KarafFeature.main p) =
    (["/opt/karaf/bin/client 'feature:list'"%string;
      "/opt/karaf/bin/client 'feature:uninstall camel-jms'"%string],
     inl (Proc.FailJson (Py.VStr "busy"))).
Proof.
  simpl.
  apply (feature_change_path
           (Samples.answering Samples.listing (Proc.Response 1 "Error, reason: busy " ""))
           (Samples.camel None absent (Py.VBool false)) true);
    vm_compute; reflexivity.
Defined.

(** X4. The commands of a run are, in order, nothing at all, the listing
    alone ([feature:list]), or the listing followed by one command:
    [feature:install] of the qualified name when the state is present,
    [feature:uninstall] of it when the state is absent.  So with
    state=present no uninstall is ever issued, with state=absent no
    install, and never more than two commands. *)
Theorem feature_commands_issued (w : Proc.world) (p : KarafFeature.params) :
  let client := KarafFeature.client_bin p in
  let listing := (client +:+ " 'feature:list'")%string in
  let target :=
    match KarafFeature.version p with
    | Some v => if String.eqb v EmptyString then KarafFeature.name p
                else (KarafFeature.name p +:+ "/" +:+ v)%string
    | None => KarafFeature.name p
    end in
  let action :=
    match KarafFeature.state_ p with
    | present => "install"%string
    | absent => "uninstall"%string
    end in
  In (Proc.trace w (KarafFeature.main p))
     [ [];
       [listing];
       [listing; (client +:+ " 'feature:" +:+ action +:+ " " +:+ target +:+ "'")%string] ].
Proof.
  cbv zeta. unfold Proc.trace. rewrite exec_feature_main.
  destruct (Py.eqb _ _ && _); [by left |].
  destruct (KarafFeature.installed_in _ _ _) as [b | e]; [| right; by left].
  destruct ((b && _) || _); [right; by left | right; right; left].
  simpl. do 2 f_equal.
  unfold FeatureRun.action_cmd, KarafFeature.CLIENT_KARAF_COMMAND_WITH_ARGS,
    KarafFeature.PACKAGE_STATE_MAP, KarafFeature.full_qualified_name,
    KarafFeature.given.
  destruct (KarafFeature.state_ p), (KarafFeature.version p) as [v|]; simpl;
    try destruct (String.eqb v EmptyString); reflexivity.
Qed.

Lemma feature_commands_issued_witness :
  In (Proc.trace (Samples.answering "" (Proc.Response 0 "" ""))
        (KarafFeature.main (Samples.camel (Some "2.18.1"%string) absent (Py.VBool false))))
     [ [];
       ["/opt/karaf/bin/client 'feature:list'"%string];
       ["/opt/karaf/bin/client 'feature:list'"%string;
        "/opt/karaf/bin/client 'feature:uninstall camel-jms/2.18.1'"%string] ].
Proof.
  exact (feature_commands_issued
           (Samples.answering "" (Proc.Response 0 "" ""))
           (Samples.camel (Some "2.18.1"%string) absent (Py.VBool false))).
Defined.

(** X5. A line of exactly three fields in the listing ends the run with an
    uncaught [IndexError] right after the listing: nothing is installed
    or uninstalled, and no result is reported. *)
Theorem short_record_aborts_run (w : Proc.world) (p : KarafFeature.params)
    (line : string) :
  Py.eqb (KarafFeature.force p) (Py.VBool true)
    && state_eqb (KarafFeature.state_ p) present = false ->
  In line (PyStr.split nl
             (Proc.out (w [] (KarafFeature.list_cmd (KarafFeature.client_bin p))))) ->
  length (PyStr.split "|" line) = 3%nat ->
  Proc.exec w [] (KarafFeature.main p) =
    ([KarafFeature.list_cmd (KarafFeature.client_bin p)],
     inl (Proc.Uncaught Py.IndexError)).
Proof.
  intros Hf Hin H3. rewrite exec_feature_main, Hf, installed_in_spec.
  assert (existsb FeatureSpec.three_fields
            (PyStr.split nl
               (Proc.out (w [] (KarafFeature.list_cmd (KarafFeature.client_bin p)))))
          = true) as ->
    by (apply existsb_three_fields; eauto).
  done.
Qed.

Lemma short_record_aborts_run_witness :
  Proc.exec (fun _ _ => Proc.Response 0 "karaf@root()> | |" "") []
    (KarafFeature.main (Samples.camel None present (Py.VBool false))) =
  (["/opt/karaf/bin/client 'feature:list'"%string], inl (Proc.Uncaught Py.IndexError)).
Proof.
  apply (short_record_aborts_run
           (fun _ _ => Proc.Response 0 "karaf@root()> | |" "")
           (Samples.camel None present (Py.VBool false))
           "karaf@root()> | |"%string).
  - reflexivity.
  - vm_compute. left. reflexivity.
  - reflexivity.
Defined.

(* ===================================================================== *)
(** ** The failure message *)
(* ===================================================================== *)

Section ParseErrorFacts.
Import PyStr.

Lemma prefix_app (sub s : string) :
  String.prefix sub s = true <-> exists post, s = sub +:+ post.
Proof.
  revert s. induction sub as [|a sub IH]; intros [|b s]; simpl.
  - split; [intros _; by exists EmptyString | done].
  - split; [intros _; by exists (String b s) | done].
  - split; [done | by intros (post & ?)].
  - destruct (ascii_dec a b) as [-> | Hne].
    + rewrite IH. split; intros (post & Hpost); exists post; [by rewrite Hpost | by inversion Hpost].
    + split; [done |]. intros (post & Hpost). inversion Hpost. congruence.
Qed.

Lemma index_unfold (sub s : string) :
  index sub s =
    if String.prefix sub s then Some 0%nat
    else match s with
         | EmptyString => None
         | String _ r => S <$> index sub r
         end.
Proof. by destruct s. Qed.

(** [index] finds the first occurrence, and fails only when there is
    none. *)
Lemma index_spec (sub s : string) :
  match index sub s with
  | None => forall pre post, s <> pre +:+ sub +:+ post
  | Some i =>
      exists pre post,
        s = pre +:+ sub +:+ post /\ String.length pre = i /\
        forall pre' post', s = pre' +:+ sub +:+ post' -> (i <= String.length pre')%nat
  end.
Proof.
  induction s as [|c r IH]; rewrite index_unfold;
    destruct (String.prefix sub _) eqn:Hp.
  - apply prefix_app in Hp as (post & Hpost).
    exists EmptyString, post. split_and!; [done | done | intros; simpl; lia].
  - intros [|c pre] post Heq; [| done].
    assert (String.prefix sub EmptyString = true) by (apply prefix_app; eauto).
    congruence.
  - apply prefix_app in Hp as (post & Hpost).
    exists EmptyString, post. split_and!; [done | done | intros; simpl; lia].
  - destruct (index sub r) as [i|]; simpl.
    + destruct IH as (pre & post & -> & <- & Hmin).
      exists (String c pre), post. split_and!; [done | done |].
      intros [|c' pre'] post' Heq.
      * assert (String.prefix sub (String c (pre +:+ sub +:+ post)) = true)
          by (apply prefix_app; eauto).
        congruence.
      * simpl in *. inversion Heq as [[Hc Hr]]. apply Hmin in Hr. lia.
    + intros [|c' pre] post Heq.
      * assert (String.prefix sub (String c r) = true) by (apply prefix_app; eauto).
        congruence.
      * simpl in Heq. inversion Heq as [[Hc Hr]]. by apply IH in Hr.
Qed.

Lemma drop_app_add (pre t : string) (k : nat) :
  drop (String.length pre + k) (pre +:+ t) = drop k t.
Proof. induction pre as [|c pre IH]; simpl; [done | exact IH]. Qed.

Lemma slice_from_after (pre sub post : string) :
  slice_from (pre +:+ sub +:+ post)
    (Z.of_nat (String.length pre + String.length sub)) = post.
Proof.
  unfold slice_from, bound. rewrite !length_app.
  destruct (Z.ltb_spec (Z.of_nat (String.length pre + String.length sub)) 0); [lia |].
  rewrite Nat2Z.id, Nat.min_r by lia.
  rewrite drop_app_add. apply (drop_app_length sub post).
Qed.

End ParseErrorFacts.

(** X6. The failure message of an install or uninstall: the text after the
    first occurrence of the marker [reason: ], trimmed, and the whole
    text, untouched, when the marker does not occur in it. *)
Theorem parse_error_cases (s : string) :
  let reason := "reason: "%string in
  ((forall pre post, s <> pre +:+ reason +:+ post) /\
   KarafFeature.parse_error s = s) \/
  (exists pre post,
      s = pre +:+ reason +:+ post /\
      (forall pre' post', s = pre' +:+ reason +:+ post' ->
                          (String.length pre <= String.length pre')%nat) /\
      KarafFeature.parse_error s = PyStr.strip post).
Proof.
  simpl. unfold KarafFeature.parse_error.
  pose proof (index_spec "reason: " s) as H.
  destruct (PyStr.index "reason: " s) as [i|].
  - right. destruct H as (pre & post & Hs & Hi & Hmin).
    exists pre, post. split_and!; [done | by rewrite Hi |].
    rewrite Hs at 1. rewrite <- Hi. by rewrite slice_from_after.
  - by left.
Qed.

(* ===================================================================== *)
(** ** How the lines of the query combine *)
(* ===================================================================== *)

Section ReaderOrderFacts.
Import Py PyStr KarafConfig ReaderSpec ReaderOrder.

Lemma observed_of_app (l1 l2 : list string) (result : gmap string val) :
  observed_of (l1 ++ l2) result = observed_of l2 (observed_of l1 result).
Proof.
  revert result. induction l1 as [|line l1 IH]; intros result; simpl; [done |].
  by destruct (contains "=" line).
Qed.

Lemma observed_of_silent (k : string) (lines : list string) (result : gmap string val) :
  silent_on k lines = true -> observed_of lines result !! k = result !! k.
Proof.
  revert result. induction lines as [|line lines IH]; intros result; simpl; [done |].
  intros [Hline Hrest]%andb_true_iff. unfold key_of in Hline.
  destruct (contains "=" line); [| by apply IH].
  rewrite IH by done. apply lookup_insert_ne.
  apply negb_true_iff, bool_decide_eq_false in Hline. congruence.
Qed.

Lemma observed_of_names (k line : string) (result : gmap string val) :
  key_of line = Some k ->
  observed_of [line] result = <[k := value_of line]> result.
Proof.
  unfold key_of, value_of. simpl.
  destruct (contains "=" line); [| done]. by intros [= <-].
Qed.

Lemma observed_of_no_property (lines : list string) (result : gmap string val) :
  no_property lines = true -> observed_of lines result = result.
Proof.
  revert result. induction lines as [|line lines IH]; intros result; simpl; [done |].
  intros [Hline Hrest]%andb_true_iff.
  apply negb_true_iff in Hline. rewrite Hline. by apply IH.
Qed.

End ReaderOrderFacts.

(** X7. Lines that do not name a property leave it as the lines before
    them made it: what the reader binds to [k] after [l1 ++ l2] is what
    it binds to [k] after [l1] whenever no line of [l2] names [k]; in
    particular a property no line names is absent from the result. *)
Theorem reader_ignores_other_lines (k : string) (l1 l2 : list string)
    (result : gmap string Py.val) :
  ReaderOrder.silent_on k l2 = true ->
  exists m1 m,
    KarafConfig.parse_lines l1 result = Py.Ok m1 /\
    KarafConfig.parse_lines (l1 ++ l2) result = Py.Ok m /\
    m !! k = m1 !! k.
Proof.
  intros Hs. exists (ReaderSpec.observed_of l1 result),
    (ReaderSpec.observed_of (l1 ++ l2) result).
  rewrite !parse_lines_observed. split_and!; [done | done |].
  rewrite observed_of_app. by apply observed_of_silent.
Qed.

Lemma reader_ignores_other_lines_witness :
  exists m1 m,
    KarafConfig.parse_lines ["a = 1"%string] ∅ = Py.Ok m1 /\
    KarafConfig.parse_lines (["a = 1"%string] ++ ["b = 2"; "Welcome"]%string) ∅ = Py.Ok m /\
    m !! "a"%string = m1 !! "a"%string.
Proof.
  apply (reader_ignores_other_lines "a" ["a = 1"%string] ["b = 2"; "Welcome"]%string ∅).
  vm_compute. reflexivity.
Defined.

(** X8. When several lines name the same property the last one wins: a
    line that names [k] and is followed only by lines that do not name
    [k] decides the value of [k], whatever came before it. *)
Theorem reader_last_line_wins (k line : string) (l1 l2 : list string)
    (result : gmap string Py.val) :
  ReaderOrder.key_of line = Some k ->
  ReaderOrder.silent_on k l2 = true ->
  exists m,
    KarafConfig.parse_lines (l1 ++ line :: l2) result = Py.Ok m /\
    m !! k = Some (ReaderOrder.value_of line).
Proof.
  intros Hk Hs. exists (ReaderSpec.observed_of (l1 ++ line :: l2) result).
  rewrite parse_lines_observed. split; [done |].
  change (line :: l2) with ([line] ++ l2).
  rewrite !observed_of_app, observed_of_silent by done.
  rewrite (observed_of_names k) by done. apply lookup_insert_eq.
Qed.

Lemma reader_last_line_wins_witness :
  exists m,
    KarafConfig.parse_lines (["port = 1"%string] ++ "port=8181"%string :: ["x = y"%string]) ∅
      = Py.Ok m /\
    m !! "port"%string = Some (ReaderOrder.value_of "port=8181").
Proof.
  apply (reader_last_line_wins "port" "port=8181" ["port = 1"%string] ["x = y"%string] ∅).
  - vm_compute. reflexivity.
  - vm_compute. reflexivity.
Defined.

(* ===================================================================== *)
(** ** Further properties of the config handler *)
(* ===================================================================== *)

Section ConfigRuns.
Import Py Proc PyStr KarafConfig ConfigSpec ReaderSpec ReaderOrder ConvertSpec.

Lemma filter_all {A} (f : A -> bool) (l : list A) :
  (forall x, f x = true) -> List.filter f l = l.
Proof. intros H. induction l as [|x l IH]; simpl; [done |]. by rewrite H, IH. Qed.

Lemma filter_none {A} (f : A -> bool) (l : list A) :
  (forall x, f x = false) -> List.filter f l = [].
Proof. intros H. induction l as [|x l IH]; simpl; [done |]. by rewrite H. Qed.

Lemma need_change_empty (desired : gmap string val) :
  need_change desired ∅ = keys desired.
Proof. unfold need_change, items, keys. by rewrite filter_all. Qed.

Lemma need_delete_empty (desired : gmap string val) :
  need_delete desired ∅ = [].
Proof.
  unfold need_delete. apply filter_none. intros k.
  apply bool_decide_eq_false. rewrite lookup_empty. by intros [? ?].
Qed.

Lemma mutations_check_mode (need : list string) (cmd : string) :
  mutations (Module true) need cmd = [].
Proof. by destruct need. Qed.

(** Every value the reader binds is a converted text. *)
Lemma observed_of_values (lines : list string) (result : gmap string val)
    (k : string) (v : val) :
  observed_of lines result !! k = Some v ->
  result !! k = Some v \/ exists t, v = convert_spec t.
Proof.
  revert result. induction lines as [|line lines IH]; intros result; simpl; [by left |].
  destruct (contains "=" line); [| apply IH].
  intros [H | H]%IH; [| by right].
  apply lookup_insert_Some in H as [[_ <-] | [_ H]]; [right; eauto | by left].
Qed.

(** A text that conversion does not give back as itself equals no
    converted text at all. *)
Lemma converted_never_equals (s t : string) :
  eqb (convert_spec s) (VStr s) = false ->
  eqb (convert_spec t) (VStr s) = false.
Proof.
  intros Hs. unfold convert_spec in *.
  destruct (int t) eqn:Hi; [done |]. destruct (float t) eqn:Hf; [done |].
  destruct (bool_word t) eqn:Hb; [done |]. simpl.
  destruct (String.eqb_spec t s) as [-> | Hne]; [| done].
  rewrite Hi, Hf, Hb in Hs. simpl in Hs. by rewrite String.eqb_refl in Hs.
Qed.

End ConfigRuns.

(** X9. When the answer to the query names no property (noise only, or
    the empty stdout of a query that failed), state=present sets every
    desired property: outside check mode it issues the one batched
    command that holds a [config:property-set] sub-command for each
    desired key, with the text of its desired value, and it reports a
    change unless no property is desired; state=absent issues nothing
    more and reports no change. *)
Theorem query_without_properties (float_str : spec_float -> string) (w : Proc.world)
    (m : KarafConfig.module) (p : KarafConfig.params) :
  let cb := KarafConfig.client_bin p in
  let n := KarafConfig.name p in
  let props := KarafConfig.properties p in
  let query := CommandSpec.query cb n props in
  let all := (map_to_list props).*1 in
  ReaderOrder.no_property (PyStr.split nl (Proc.out (w [] query))) = true ->
  Proc.exec w [] (KarafConfig.main float_str m p) =
    match KarafConfig.state_ p with
    | present =>
        (query :: match all with
                  | [] => []
                  | _ => if KarafConfig.check_mode m then []
                         else [CommandSpec.set_cmd float_str cb n props all]
                  end,
         inl (Proc.ExitJson
                (<["changed"%string := Py.VBool (ConfigSpec.nonempty all)]>
                   KarafConfig.initial_result)))
    | absent =>
        ([query],
         inl (Proc.ExitJson
                (<["changed"%string := Py.VBool false]> KarafConfig.initial_result)))
    end.
Proof.
  cbv zeta. intros Hno. rewrite exec_config_main. unfold ConfigSpec.observed.
  rewrite property_get_cmd_text in *.
  rewrite observed_of_no_property by done.
  rewrite property_set_cmd_text, need_change_empty, need_delete_empty.
  unfold ConfigSpec.mutations, ConfigSpec.result_with, KarafConfig.keys.
  by destruct (KarafConfig.state_ p).
Qed.

Lemma query_without_properties_witness :
  Proc.exec (fun _ _ => Proc.Response 1 "" "Connection refused") []
    (KarafConfig.main Samples.no_float (KarafConfig.Module false) Samples.kar_params) =
  ([("/opt/karaf/bin/client " +:+ dq +:+
     "config:property-get --raw --pid org.apache.karaf.kar noAutoStartBundles" +:+ dq)%string;
    ("/opt/karaf/bin/client " +:+ dq +:+ "config:property-set --pid " +:+ dq +:+
     "org.apache.karaf.kar" +:+ dq +:+ " noAutoStartBundles False" +:+ dq)%string],
   inl (Proc.ExitJson
          (<["changed"%string := Py.VBool true]>
             (<["original_message"%string := Py.VStr ""]>
                (<["message"%string := Py.VStr ""]> ∅))))).
Proof.
  pose proof (query_without_properties Samples.no_float
                (fun _ _ => Proc.Response 1 "" "Connection refused")
                (KarafConfig.Module false) Samples.kar_params) as H.
  vm_compute in H |- *. apply H. reflexivity.
Defined.

(** X10. Check mode issues the query and nothing else, and reports exactly
    the result a real run reports on the same system. *)
Theorem check_mode_predicts_change (float_str : spec_float -> string) (w : Proc.world)
    (p : KarafConfig.params) :
  Proc.trace w (KarafConfig.main float_str (KarafConfig.Module true) p) =
    [KarafConfig.property_get_cmd (KarafConfig.client_bin p) (KarafConfig.name p)
       (KarafConfig.properties p)] /\
  Proc.final w (KarafConfig.main float_str (KarafConfig.Module true) p) =
    Proc.final w (KarafConfig.main float_str (KarafConfig.Module false) p).
Proof.
  unfold Proc.trace, Proc.final. rewrite !exec_config_main.
  destruct (KarafConfig.state_ p); simpl; by rewrite mutations_check_mode.
Qed.

(** X11. A desired value given as text that conversion reads as something
    else (an integer, a float, a boolean word) never compares equal to
    what the query returns: whatever the system answers, the property
    is in the needs-change list and the pass reports changed=true. *)
Theorem converted_text_never_settles (float_str : spec_float -> string)
    (w : Proc.world) (client_bin : string) (m : KarafConfig.module) (name : string)
    (props : gmap string Py.val) (k s : string) :
  props !! k = Some (Py.VStr s) ->
  Py.eqb (ConvertSpec.convert_spec s) (Py.VStr s) = false ->
  k ∈ KarafConfig.need_change props (ConfigSpec.observed w client_bin name props) /\
  Proc.final w (KarafConfig.config_property_set float_str client_bin m name props) =
    inr (ConfigSpec.result_with true).
Proof.
  intros Hk Hs.
  assert (Hin : k ∈ KarafConfig.need_change props
                      (ConfigSpec.observed w client_bin name props)).
  { apply elem_of_need_change. exists (Py.VStr s). split; [done |].
    destruct (ConfigSpec.observed w client_bin name props !! k) as [v|] eqn:Ho;
      [right | by left].
    exists v. split; [done |]. unfold Py.neqb. apply negb_true_iff.
    apply observed_of_values in Ho as [Ho | [t ->]]; [by rewrite lookup_empty in Ho |].
    by apply converted_never_equals. }
  split; [done |].
  unfold Proc.final. rewrite exec_config_property_set. simpl.
  destruct (KarafConfig.need_change props _); [by apply elem_of_nil in Hin | done].
Qed.

Lemma converted_text_never_settles_witness :
  let props : gmap string Py.val := {[ "port"%string := Py.VStr "8181" ]} in
  let w := Samples.answering "port = 8181" (Proc.Response 0 "" "") in
  "port"%string ∈ KarafConfig.need_change props
     (ConfigSpec.observed w "client" "org.ops4j.pax.web" props) /\
  Proc.final w (KarafConfig.config_property_set Samples.no_float "client"
                  (KarafConfig.Module false) "org.ops4j.pax.web" props) =
    inr (ConfigSpec.result_with true).
Proof.
  simpl.
  apply (converted_text_never_settles Samples.no_float
           (Samples.answering "port = 8181" (Proc.Response 0 "" ""))
           "client" (KarafConfig.Module false) "org.ops4j.pax.web"
           {[ "port"%string := Py.VStr "8181" ]} "port" "8181").
  - apply lookup_singleton_eq.
  - vm_compute. reflexivity.
Defined.

(* ===================================================================== *)
(** ** Writing a value and reading it back *)
(* ===================================================================== *)

Section RoundTripFacts.
Import Py PyStr KarafConfig ConvertSpec.

Lemma digits_cons (acc : Z) (c : ascii) (r : string) :
  digits acc (String c r) =
    match digit c with
    | Some d => digits (10 * acc + d) r
    | None => None
    end.
Proof. reflexivity. Qed.

Ltac read_digit :=
  rewrite digits_cons;
  match goal with
  | |- context [digit ?c] =>
      let v := eval vm_compute in (digit c) in change (digit c) with v
  end;
  cbv iota.

Lemma digits_of_uint_acc (d : Decimal.uint) :
  forall p : positive,
    digits (Z.pos p) (NilEmpty.string_of_uint d) = Some (Z.pos (Pos.of_uint_acc d p)).
Proof.
  induction d as [|d IH|d IH|d IH|d IH|d IH|d IH|d IH|d IH|d IH|d IH];
    intros p; [done | ..];
    cbn [NilEmpty.string_of_uint Pos.of_uint_acc]; read_digit;
    rewrite <- IH; f_equal; lia.
Qed.

Lemma digits_of_uint (d : Decimal.uint) :
  digits 0 (NilEmpty.string_of_uint d) = Some (Z.of_N (Pos.of_uint d)).
Proof.
  induction d as [|d IH|d IH|d IH|d IH|d IH|d IH|d IH|d IH|d IH|d IH];
    [done | ..];
    cbn [NilEmpty.string_of_uint Pos.of_uint]; read_digit;
    [exact IH | ..];
    match goal with
    | |- digits (10 * 0 + ?k) _ = _ =>
        change (10 * 0 + k) with k; by rewrite digits_of_uint_acc
    end.
Qed.

Lemma rstrip_cons (c : ascii) (r : string) :
  is_ws c = false -> rstrip r = r -> rstrip (String c r) = String c r.
Proof. intros Hc Hr. simpl. rewrite Hr, Hc. by destruct r. Qed.

Lemma rstrip_uint (d : Decimal.uint) :
  rstrip (NilEmpty.string_of_uint d) = NilEmpty.string_of_uint d.
Proof.
  induction d as [|d IH|d IH|d IH|d IH|d IH|d IH|d IH|d IH|d IH|d IH];
    [done | ..]; cbn [NilEmpty.string_of_uint]; by apply rstrip_cons.
Qed.

Lemma strip_uint (d : Decimal.uint) :
  strip (NilEmpty.string_of_uint d) = NilEmpty.string_of_uint d.
Proof.
  unfold strip. destruct d; [done | ..];
    cbn [NilEmpty.string_of_uint lstrip];
    match goal with
    | |- context [is_ws ?c] =>
        let v := eval vm_compute in (is_ws c) in change (is_ws c) with v
    end; cbv iota;
    match goal with
    | |- rstrip (String ?c (NilEmpty.string_of_uint ?d)) = _ =>
        apply rstrip_cons; [reflexivity | apply rstrip_uint]
    end.
Qed.

Lemma int_of_uint (d : Decimal.uint) :
  d <> Decimal.Nil ->
  int (NilEmpty.string_of_uint d) = Some (Z.of_N (Pos.of_uint d)).
Proof.
  intros Hd. unfold int. rewrite strip_uint, <- digits_of_uint.
  by destruct d.
Qed.

Lemma int_of_neg_uint (d : Decimal.uint) :
  d <> Decimal.Nil ->
  int (String "-" (NilEmpty.string_of_uint d)) = Some (- Z.of_N (Pos.of_uint d)).
Proof.
  intros Hd. unfold int, strip.
  change (lstrip (String "-" ?s)) with (String "-" s).
  rewrite rstrip_cons by (reflexivity || apply rstrip_uint).
  assert (unsigned (NilEmpty.string_of_uint d) = Some (Z.of_N (Pos.of_uint d))) as ->
    by (rewrite <- digits_of_uint; by destruct d).
  reflexivity.
Qed.

(** [int(str(z))] is [z]. *)
Lemma int_str_of_Z (z : Z) : int (str_of_Z z) = Some z.
Proof.
  unfold str_of_Z. destruct z as [|p|p]; [reflexivity | |];
    pose proof (DecimalPos.Unsigned.to_uint_nonnil p) as Hn;
    pose proof (DecimalPos.Unsigned.of_to p) as Hp;
    cbn [Z.to_int NilZero.string_of_int]; unfold NilZero.string_of_uint.
  - destruct (Pos.to_uint p) eqn:E; [done | ..];
      rewrite <- E in *; rewrite int_of_uint by done; by rewrite Hp.
  - destruct (Pos.to_uint p) eqn:E; [done | ..];
      rewrite <- E in *; rewrite int_of_neg_uint by done; by rewrite Hp.
Qed.

End RoundTripFacts.

(** X12. The text the handler writes for an integer or a boolean converts
    back to that very value: reading what was written gives the value
    that was desired. *)
Theorem written_values_read_back (float_str : spec_float -> string) :
  (forall z : Z,
      KarafConfig.convert (Py.str float_str (Py.VInt z)) = Py.Ok (Py.VInt z)) /\
  (forall b : bool,
      KarafConfig.convert (Py.str float_str (Py.VBool b)) = Py.Ok (Py.VBool b)).
Proof.
  split.
  - intros z. rewrite convert_cascade. unfold ConvertSpec.convert_spec. simpl.
    by rewrite int_str_of_Z.
  - intros [|]; vm_compute; reflexivity.
Qed.

(** X13. An integer or boolean property settles: once the system answers
    the query with the text the handler wrote for it, the property no
    longer needs changing. *)
Theorem written_value_settles (float_str : spec_float -> string)
    (desired observed : gmap string Py.val) (k : string) (v : Py.val) :
  RoundTripSpec.exact v = true ->
  desired !! k = Some v ->
  observed !! k = Some (ConvertSpec.convert_spec (Py.str float_str v)) ->
  k ∉ KarafConfig.need_change desired observed.
Proof.
  intros Hv Hd Ho Hin.
  apply elem_of_need_change in Hin as (v' & Hd' & [Hn | (w & Ho' & Hne)]);
    [congruence |].
  rewrite Hd in Hd'. rewrite Ho in Ho'. simplify_eq.
  unfold Py.neqb in Hne. apply negb_true_iff in Hne.
  destruct v' as [|b|z|f|s]; try discriminate.
  - by destruct b.
  - unfold ConvertSpec.convert_spec in Hne. simpl in Hne.
    rewrite int_str_of_Z in Hne. simpl in Hne. by rewrite Z.eqb_refl in Hne.
Qed.

Lemma written_value_settles_witness :
  "maxThreads"%string ∉
    KarafConfig.need_change
      ({[ "maxThreads"%string := Py.VInt 200 ]} : gmap string Py.val)
      (ReaderSpec.observed_of ["maxThreads = 200"%string] ∅).
Proof.
  apply (written_value_settles Samples.no_float
           {[ "maxThreads"%string := Py.VInt 200 ]}
           (ReaderSpec.observed_of ["maxThreads = 200"%string] ∅)
           "maxThreads" (Py.VInt 200)).
  - reflexivity.
  - apply lookup_singleton_eq.
  - vm_compute. reflexivity.
Defined.

(** X14. With no desired property the handler still asks the client, with
    an empty command, and reports no change: no mutation is issued for
    either state, whatever the client answers. *)
Theorem empty_properties_run (float_str : spec_float -> string) (w : Proc.world)
    (m : KarafConfig.module) (p : KarafConfig.params) :
  KarafConfig.properties p = ∅ ->
  Proc.exec w [] (KarafConfig.main float_str m p) =
    ([KarafConfig.client_call (KarafConfig.client_bin p) ""],
     inl (Proc.ExitJson KarafConfig.initial_result)).
Proof.
  intros He. rewrite exec_config_main, He.
  unfold KarafConfig.need_change, KarafConfig.need_delete, KarafConfig.property_get_cmd,
    KarafConfig.items, KarafConfig.keys.
  rewrite map_to_list_empty. simpl. rewrite result_unchanged.
  by destruct (KarafConfig.state_ p).
Qed.

Lemma empty_properties_run_witness :
  Proc.exec (fun _ _ => Proc.Response 0 "a = 1" "") []
    (KarafConfig.main Samples.no_float (KarafConfig.Module false)
       (KarafConfig.Params "org.apache.karaf.kar" absent ∅ "client")) =
  ([KarafConfig.client_call "client" ""], inl (Proc.ExitJson KarafConfig.initial_result)).
Proof.
  apply (empty_properties_run Samples.no_float
           (fun _ _ => Proc.Response 0 "a = 1" "")
           (KarafConfig.Module false)
           (KarafConfig.Params "org.apache.karaf.kar" absent ∅ "client")).
  reflexivity.
Defined.

(** X15. The force flag matters only when it compares equal to [True] and
    the state is present: in every other invocation the handler runs
    exactly as it does with force left at [False]. *)
Theorem force_otherwise_ignored (w : Proc.world) (name : string)
    (version : option string) (s : state) (force : Py.val) (client_bin : string) :
  Py.eqb force (Py.VBool true) && state_eqb s present = false ->
  Proc.exec w [] (KarafFeature.main
                    (KarafFeature.Params name version s force client_bin)) =
  Proc.exec w [] (KarafFeature.main
                    (KarafFeature.Params name version s (Py.VBool false) client_bin)).
Proof.
  intros Hf. rewrite !exec_feature_main. simpl. by rewrite Hf.
Qed.

Lemma force_otherwise_ignored_witness :
  Proc.exec (Samples.answering Samples.listing (Proc.Response 0 "" "")) []
    (KarafFeature.main (Samples.camel None present (Py.VStr "true"))) =
  Proc.exec (Samples.answering Samples.listing (Proc.Response 0 "" "")) []
    (KarafFeature.main (Samples.camel None present (Py.VBool false))).
Proof.
  apply (force_otherwise_ignored
           (Samples.answering Samples.listing (Proc.Response 0 "" ""))
           "camel-jms" None present (Py.VStr "true") "/opt/karaf/bin/client").
  reflexivity.
Defined.
